(** * Solar energy model: sizing, region allocation, reconciliation, OPEX

    A shallow embedding of the core of [solar_energy_model/model.py]
    (with the sizing block of [solar_energy_model/validator.py]) and the
    properties of it that the specification states.

    Conventions of the embedding.
    - The steps of the model are embedded over exact rationals ([Q]): their
      sums, products and comparisons are those of exact arithmetic, which is
      what Python computes on whole numbers and what it rounds on floats.
      Results that the code computes by a given expression are stated with
      Leibniz equality on that expression; derived arithmetic facts are
      stated up to [==].
    - Module [Py] embeds the sizing ([x03GetAvailableArea]) and the
      selection ([x04GetRegions]) a second time, over Python numbers: ints
      of any size and binary64 floats, with the rounding, the conversions
      and the exceptions of Python.  The properties that depend on these
      are stated there; on whole numbers the two embeddings of the
      selection agree.
    - [None] is [Datatypes.None] of an [option]; arithmetic on [None] raises
      [TypeError], division by zero raises [ZeroDivisionError].
    - A catalogue row has the columns of the use-case CSV as a record; the
      keys a row receives while it is processed are optional fields.
    - An hourly series is the list of its values, in index order.
    - The remote services (PVGIS through pvlib, pyproj) are section
      variables. *)

From Stdlib Require Import QArith Lqa String Ascii.
From Stdlib Require PrimFloat SpecFloat FloatOps.
From stdpp Require Import base option list strings.

Open Scope Q_scope.

(** ** Exceptions and the result monad *)

Inductive PyExc : Type :=
  | TypeError
  | ZeroDivisionError
  | IndexError
  | KeyError
  | AttributeError
  | OverflowError
  | UnboundLocalError (name : string)
  | Exception_ (msg : string).

Inductive Res (A : Type) : Type :=
  | Ok (a : A)
  | Raise (e : PyExc).
Arguments Ok {A} a.
Arguments Raise {A} e.

#[export] Instance Res_ret : MRet Res := fun A a => Ok a.
#[export] Instance Res_bind : MBind Res := fun A B f m =>
  match m with
  | Ok a => f a
  | Raise e => Raise e
  end.

(** ** Numbers *)

Definition e3 : Q := 1000.
Definition e6 : Q := 1000000.
Definition e8 : Q := 100000000.

(** [x < y] and [x > y] on numbers. *)
Definition Qlt_bool (x y : Q) : bool := negb (Qle_bool y x).

(** A Python value that is a number or [None], used as an operand. *)
Definition num (v : option Q) : Res Q :=
  match v with
  | Some q => Ok q
  | None => Raise TypeError
  end.

(** True division [x / y]. *)
Definition pydiv (x y : Q) : Res Q :=
  if Qeq_bool y 0 then Raise ZeroDivisionError else Ok (x / y).

(** [l[i]] for a non-negative index. *)
Definition getitem {A : Type} (l : list A) (i : nat) : Res A :=
  match l !! i with
  | Some x => Ok x
  | None => Raise IndexError
  end.

(** [l[i] = x]: assignment to an index that does not exist raises. *)
Definition setitem {A : Type} (l : list A) (i : nat) (x : A) : Res (list A) :=
  if decide (i < length l)%nat then Ok (<[i:=x]> l) else Raise IndexError.

(** ** validator.py: the sizing triple *)

Definition validateLimits (value limitDown limitUp : Q) : bool :=
  Qle_bool limitDown value && Qle_bool value limitUp.

(** One field of the triple: a value that is present and out of range is
    replaced by 0. *)
Definition validateField (v : option Q) (limitUp : Q) : option Q :=
  match v with
  | Some x => if negb (validateLimits x 0 limitUp) then Some 0 else Some x
  | None => None
  end.

(** The block of [validateProcessPayload] on [area_total_*], [power_*] and
    [capex_*] (the thermal and the PV block are the same code): each field
    is range-checked, then an all-null triple gets area 0. *)
Definition validateSizing (area power capex : option Q)
  : option Q * option Q * option Q :=
  let area := validateField area (10 ^ 10) in
  let power := validateField power (10 ^ 12) in
  let capex := validateField capex (5 * 10 ^ 11) in
  match area, power, capex with
  | None, None, None => (Some 0, None, None)
  | _, _, _ => (area, power, capex)
  end.

(** ** model.py: x03GetAvailableArea *)

(** [next((i for i, value in enumerate(parameters) if value is not None), -1)],
    counting from [i]. *)
Fixpoint next_not_none (i : Z) (parameters : list (option Q)) : Z :=
  match parameters with
  | [] => (-1)%Z
  | Some _ :: _ => i
  | None :: rest => next_not_none (i + 1)%Z rest
  end.

Definition x03GetAvailableArea (parameters : list (option Q)) (cost landUse : Q)
  : Res (Q * Q * Q) :=
  let index := next_not_none 0 parameters in
  if (index =? 2)%Z then
    capex ← getitem parameters 2 ≫= num;
    power ← pydiv capex (cost * e6);
    area ← pydiv (power * e6) landUse;
    mret (area, power, capex)
  else if (index =? 1)%Z then
    p ← getitem parameters 1 ≫= num;
    area ← pydiv (p * e6) landUse;
    let power := p in
    let capex := power * cost * e6 in
    mret (area, power, capex)
  else
    area ← getitem parameters 0;
    a ← num area;
    let power := (a * landUse) / e6 in
    let capex := power * cost * e6 in
    mret (a, power, capex).


(** ** Catalogue rows *)

(** A row of the use-case CSV, as [iterrows] yields it.  The last five
    fields are the keys that [x05GetThermalProduction] and
    [x06GetPVProduction] store in a selected row; a key that has not been
    stored is [None]. *)
Record Row : Type := mkRow {
  Region : string;
  Threshold : Q;
  Area_m2 : Q;
  Median_Radiation : Q;
  Median_Radiation_X : Q;
  Median_Radiation_Y : Q;
  radiation : option (list Q);
  temperature : option (list Q);
  power_installed : option Q;
  thermal_power : option (list Q);
  pv_power : option (list Q)
}.

(** A row as read from the CSV. *)
Definition csvRow (region : string) (threshold area quality x y : Q) : Row :=
  mkRow region threshold area quality x y None None None None None.

(** [row['Area_m2'] = v] *)
Definition set_Area_m2 (v : Q) (r : Row) : Row :=
  mkRow (Region r) (Threshold r) v (Median_Radiation r)
        (Median_Radiation_X r) (Median_Radiation_Y r)
        (radiation r) (temperature r) (power_installed r)
        (thermal_power r) (pv_power r).

(** The keys stored by [x05GetThermalProduction]. *)
Definition set_thermal (dni temp : list Q) (pot : Q) (prod : list Q) (r : Row) : Row :=
  mkRow (Region r) (Threshold r) (Area_m2 r) (Median_Radiation r)
        (Median_Radiation_X r) (Median_Radiation_Y r)
        (Some dni) (Some temp) (Some pot) (Some prod) (pv_power r).

(** The keys stored by [x06GetPVProduction]. *)
Definition set_pv (pot : Q) (prod : list Q) (r : Row) : Row :=
  mkRow (Region r) (Threshold r) (Area_m2 r) (Median_Radiation r)
        (Median_Radiation_X r) (Median_Radiation_Y r)
        (radiation r) (temperature r) (Some pot)
        (thermal_power r) (Some prod).

(** [s[:-1]] *)
Fixpoint drop_last (s : string) : string :=
  match s with
  | EmptyString => EmptyString
  | String c EmptyString => EmptyString
  | String c s' => String c (drop_last s')
  end.

(** ** model.py: x04GetRegions, on row values *)

(** The test of line 560, once the region name is known. *)
Definition qualifies (nameNuts2 : string) (minGHI : Q) (row : Row) : bool :=
  Qlt_bool 0 (Area_m2 row)
  && negb (String.eqb (Region row) nameNuts2)
  && Qle_bool minGHI (Threshold row).

(** The region name after the first two lines of the loop body. *)
Definition captureName (nameNuts2 : option string) (row : Row) : string :=
  match nameNuts2 with
  | None => drop_last (Region row)
  | Some n => n
  end.

(** The [for] loop over the rows still to come, from the state
    ([currentSum], [nameNuts2], [rows]) reached so far.  The first branch
    is the one that ends in [break]. *)
Fixpoint x04_loop (scada : list Row) (area minGHI : Q)
    (currentSum : Q) (nameNuts2 : option string) (rows : list Row)
  : list Row * option string :=
  match scada with
  | [] => (rows, nameNuts2)
  | row :: rest =>
      let name := captureName nameNuts2 row in
      if qualifies name minGHI row then
        if Qlt_bool area (currentSum + Area_m2 row) then
          let row := set_Area_m2 (area - currentSum) row in
          (rows ++ [row], Some name)
        else
          x04_loop rest area minGHI (currentSum + Area_m2 row) (Some name)
                   (rows ++ [row])
      else
        x04_loop rest area minGHI currentSum (Some name) rows
  end.

Definition x04GetRegions (scada : list Row) (area minGHI : Q)
  : list Row * option string :=
  x04_loop scada area minGHI 0 None [].

(** The cumulative [Area_m2] of a list of rows, added in list order. *)
Definition totalArea (rows : list Row) : Q :=
  fold_left (fun acc r => acc + Area_m2 r) rows 0.

(** ** Series, frames and dictionaries *)

(** Sum of two series aligned on their index; a missing value counts as 0. *)
Fixpoint series_add (xs ys : list Q) : list Q :=
  match xs, ys with
  | [], _ => ys
  | _, [] => xs
  | x :: xs', y :: ys' => (x + y) :: series_add xs' ys'
  end.

(** [pd.DataFrame(series).sum(axis=0)]: the sum of a list of series, hour
    by hour.  It is empty when the list is. *)
Definition df_sum (series : list (list Q)) : list Q :=
  fold_left series_add series [].

(** [s.empty] *)
Definition is_empty (s : list Q) : bool :=
  match s with
  | [] => true
  | _ :: _ => false
  end.

(** A dictionary with string keys, as the list of its items in insertion
    order. *)
Abbreviation Dict := (list (string * Q)).

(** [d[k] = v]: an existing key keeps its place. *)
Fixpoint dict_set (k : string) (v : Q) (d : Dict) : Dict :=
  match d with
  | [] => [(k, v)]
  | (k', v') :: d' =>
      if String.eqb k' k then (k', v) :: d' else (k', v') :: dict_set k v d'
  end.

(** [{**d1, **d2}] *)
Definition dict_merge (d1 d2 : Dict) : Dict :=
  fold_left (fun d kv => dict_set (fst kv) (snd kv) d) d2 d1.

(** [sub in s] *)
Fixpoint contains (sub s : string) : bool :=
  String.prefix sub s
  || match s with
     | EmptyString => false
     | String _ s' => contains sub s'
     end.

(** [s.rsplit('_')] for a one-character separator: the pieces between the
    separators. *)
Fixpoint split_on (sep : ascii) (s : string) : list string :=
  match s with
  | EmptyString => [EmptyString]
  | String c s' =>
      if Ascii.eqb c sep then EmptyString :: split_on sep s'
      else match split_on sep s' with
           | [] => [String c EmptyString]
           | p :: ps => String c p :: ps
           end
  end.

(** [list(dict.fromkeys(l))]: the distinct elements, in order of first
    occurrence. *)
Fixpoint unique (seen l : list string) : list string :=
  match l with
  | [] => []
  | x :: l' =>
      if bool_decide (x ∈ seen) then unique seen l'
      else x :: unique (x :: seen) l'
  end.

(** A column of a frame: the former index (after [reset_index]) or
    numbers. *)
Inductive Column : Type :=
  | IndexColumn
  | Values (v : list Q).

(** A frame with a time index: the name of the index and the labelled
    columns, in order. *)
Record Frame : Type := mkFrame {
  index_name : option string;
  columns : list (string * Column)
}.

(** [df.reset_index()]: the index becomes the first column, labelled by its
    name, or ['index'] when it has none. *)
Definition reset_index (df : Frame) : Frame :=
  mkFrame None ((default "index"%string (index_name df), IndexColumn) :: columns df).

(** [df.columns = labels] *)
Definition set_columns (labels : list string) (df : Frame) : Frame :=
  mkFrame (index_name df) (zip labels (map snd (columns df))).

(** [str(x)] of a string or [None]. *)
Definition str (x : option string) : string := default "None"%string x.

(** ** model.py: the area reconciliation of s05CalculateThermalProduction *)

(** The mask [(scadaPV['Region'] == region['Region']) &
    (scadaPV['Threshold'] == region['Threshold'])] at one row. *)
Definition sameKey (region row : Row) : bool :=
  String.eqb (Region row) (Region region)
  && Qeq_bool (Threshold row) (Threshold region).

(** One pass of the loop body (lines 244-248): the masked rows are taken
    out, [region['Area_m2']] is subtracted from their [Area_m2], and they
    are written back. *)
Definition subtractArea (region : Row) (scadaPV : list Row) : list Row :=
  map (fun row =>
         if sameKey region row
         then set_Area_m2 (Area_m2 row - Area_m2 region) row
         else row)
      scadaPV.

(** [for region in rowsTH: ...] (lines 243-248). *)
Definition removeUsedAreas (rowsTH scadaPV : list Row) : list Row :=
  fold_left (fun pv region => subtractArea region pv) rowsTH scadaPV.

(** ** model.py: x07GetDistribution and x08CalculateOpex *)

(** [row[label]] for the two labels the model uses. *)
Definition getSeries (label : string) (r : Row) : Res (list Q) :=
  let v := if String.eqb label "thermal_power" then thermal_power r
           else if String.eqb label "pv_power" then pv_power r
           else None in
  match v with
  | Some s => Ok s
  | None => Raise KeyError
  end.

Definition getPower (r : Row) : Res Q :=
  match power_installed r with
  | Some p => Ok p
  | None => Raise KeyError
  end.

(** The regions of the rows, each once, in order of first occurrence
    (lines 704-707). *)
Definition regionsOf (rows : list Row) : list string :=
  unique [] (map Region rows).

(** The three sums of one region (lines 714-720). *)
Definition x07_region (rows : list Row) (label : string) (i : string)
  : Res (list Q * Q * Q) :=
  let members := filter (fun r => i = Region r) rows in
  nuts ← mapM (getSeries label) members;
  pots ← mapM getPower members;
  mret (df_sum nuts,
        fold_left Qplus (map Area_m2 members) 0,
        fold_left Qplus pots 0).

(** The name of the time index of the series stored under a label: pvlib
    names the index of the TMY data ['time(UTC)'] and that of the hourly PV
    data ['time'] (steps 07 and 08 rely on both names). *)
Definition indexName (label : string) : string :=
  if String.eqb label "thermal_power" then "time(UTC)"%string else "time"%string.

(** The hours of the table [pd.DataFrame(sumNuts, index=res).transpose()]:
    its index is the union of the indices of the series, so it has as many
    hours as the longest of them. *)
Definition hours (cols : list (string * list Q)) : nat :=
  fold_right Nat.max 0%nat (map (fun c => length (snd c)) cols).

(** [nuts2.dropna(axis=1)] (line 727): a column whose series lacks an hour
    of the table holds NaN there, and is dropped; the sums themselves hold
    no NaN, since [sum] skips it. *)
Definition dropna (cols : list (string * list Q)) : list (string * list Q) :=
  filter (fun c => length (snd c) = hours cols) cols.

(** Returns the per-region production table (one column per region that
    has every hour), the installed power and the area per region.  With no
    rows the table has no time index, and formatting its index raises. *)
Definition x07GetDistribution (rows : list Row) (label : string)
  : Res (Frame * Dict * Dict) :=
  let res := regionsOf rows in
  sums ← mapM (x07_region rows label) res;
  let areas := zip res (map (fun s => snd (fst s)) sums) in
  let pots := zip res (map snd sums) in
  let nuts2 := dropna (zip res (map (fun s => fst (fst s)) sums)) in
  match rows with
  | [] => Raise AttributeError
  | _ :: _ =>
      mret (mkFrame (Some (indexName label))
                    (map (fun c => (fst c, Values (snd c))) nuts2),
            pots, areas)
  end.

Definition x08_step (totals : Q * Q) (item : string * Q) : Q * Q :=
  let '(totalTH, totalPV) := totals in
  let '(dKey, dValue) := item in
  if contains "thermal" dKey then (totalTH + dValue, totalPV)
  else if contains "pv" dKey then (totalTH, totalPV + dValue)
  else (totalTH, totalPV).

Definition x08CalculateOpex (dictData : Dict) (opexTH opexPV : Q) : Q * Q :=
  let '(totalTH, totalPV) := fold_left x08_step dictData (0, 0) in
  (totalTH * opexTH, totalPV * opexPV).

(** The totals as the specification words them: every capacity whose key
    contains ['thermal'], and every capacity whose key contains ['pv']. *)
Definition sumWhere (p : string -> bool) (d : Dict) : Q :=
  fold_left Qplus (map snd (filter (fun kv => p (fst kv) = true) d)) 0.

Definition spec_opex (dictData : Dict) (opexTH opexPV : Q) : Q * Q :=
  (sumWhere (contains "thermal") dictData * opexTH,
   sumWhere (contains "pv") dictData * opexPV).

(** ** model.py: the production models and the steps *)

Definition x02ThermalModel (radiation : list Q) (effTH effOp aperture : Q) : list Q :=
  map (fun r => r * aperture * effTH * effOp / e6) radiation.

(** Lines 667-668 of [x06GetPVProduction]: the peak power handed to PVGIS
    and the factor applied to the answer.  The factor is computed from the
    value of [potMW] that the line before has just assigned. *)
Definition x06_scale (potMW : Q) : Q * Q :=
  let potMW := if Qlt_bool e8 (potMW * e3) then potMW / e3 else potMW in
  let factor := if Qlt_bool e8 (potMW * e3) then e3 else 1 in
  (potMW, factor).

(** The answer of a service to the query for the full peak power, in the
    units of the result (the series of [x06GetPVProduction] with no
    rescaling). *)
Definition unscaled (P : list Q) : list Q :=
  map (fun x => x * 1 / e6) P.

Section Collaborators.

(** [pyproj]: EPSG:3035 to EPSG:4326, [(x, y)] to [(lon, lat)]. *)
Variable transform : Q -> Q -> Q * Q.

(** [pvlib.iotools.get_pvgis_tmy] at a latitude and longitude: the
    columns [dni] and [temp_air], or an exception. *)
Variable get_pvgis_tmy : Q -> Q -> Res (list Q * list Q).

(** [pvlib.iotools.get_pvgis_hourly] at a latitude and longitude, for a
    year, tilt, azimuth, peak power (kW), tracking type and loss: the
    column [P], or an exception. *)
Variable get_pvgis_hourly : Q -> Q -> Z -> Q -> Q -> Q -> Z -> Q -> Res (list Q).

Definition x01GetCoord (df : Row) : Q * Q :=
  transform (Median_Radiation_X df) (Median_Radiation_Y df).

(** The body of the loop of [x05GetThermalProduction] at one region: the
    region with its new keys, and its production. *)
Definition x05_region (landUse effTH effOp aperture : Q) (convertCoord : bool)
    (region : Row) : Res (Row * list Q) :=
  let '(lon, lat) := (Median_Radiation_X region, Median_Radiation_Y region) in
  let '(lon, lat) := if convertCoord || Qlt_bool 180 lat
                     then x01GetCoord region else (lon, lat) in
  let factor := 1 in
  match get_pvgis_tmy lat lon with
  | Raise _ =>
      Raise (Exception_ "Main/>  Could not get thermal production because the external server is not responding!")
  | Ok (dni, temp_air) =>
      let prod := map (fun x => x * factor) (x02ThermalModel dni effTH effOp aperture) in
      let region := set_thermal dni temp_air ((Area_m2 region * landUse) / e6) prod region in
      mret (region, prod)
  end.

(** Returns the rows as the loop leaves them, and [production].  The year
    only re-stamps the index of the data. *)
Definition x05GetThermalProduction (rows : list Row)
    (landUse effTH effOp aperture : Q) (convertCoord : bool) (year : Z)
  : Res (list Row * list (list Q)) :=
  out ← mapM (x05_region landUse effTH effOp aperture convertCoord) rows;
  mret (map fst out, map snd out).

(** The body of the loop of [x06GetPVProduction] at one region. *)
Definition x06_region (landUse tilt azimuth : Q) (tracking : Z) (loss : Q)
    (convertCoord : bool) (year : Z) (region : Row) : Res (Row * list Q) :=
  let '(lon, lat) := (Median_Radiation_X region, Median_Radiation_Y region) in
  let '(lon, lat) := if convertCoord then x01GetCoord region else (lon, lat) in
  let potMW := (Area_m2 region * landUse) / e6 in
  let installed := potMW in
  let '(potMW, factor) := x06_scale potMW in
  P ← get_pvgis_hourly lat lon year tilt azimuth (potMW * e3) tracking loss;
  let prod := [P] in
  let series := map (fun x => x * factor / e6) (df_sum prod) in
  mret (set_pv installed series region, series).

Definition x06GetPVProduction (rows : list Row) (landUse tilt azimuth : Q)
    (tracking : Z) (loss : Q) (convertCoord : bool) (year : Z)
  : Res (list Row * list (list Q)) :=
  out ← mapM (x06_region landUse tilt azimuth tracking loss convertCoord year) rows;
  mret (map fst out, map snd out).

(** A local variable that is read: unbound, it raises. *)
Definition local {A : Type} (name : string) (v : option A) : Res A :=
  match v with
  | Some a => Ok a
  | None => Raise (UnboundLocalError name)
  end.

(** Returns [nuts2TH, rowsTH, potDistTH, dfTH, scadaPV].  [nuts2TH] and
    [potDistTH] are assigned only inside the [if]. *)
Definition s05CalculateThermalProduction (scadaTH scadaPV : list Row)
    (areaTH minGhiTH landUseTH effTH effOp aperture : Q)
    (convertCoord : bool) (year : Z)
  : Res (Frame * list Row * Dict * list Q * list Row) :=
  let '(rowsTH, nameNuts2) := x04GetRegions scadaTH areaTH minGhiTH in
  '(rowsTH, prodTH) ← x05GetThermalProduction rowsTH landUseTH effTH effOp
                         (areaTH * aperture) convertCoord year;
  let dfTH := df_sum prodTH in
  '(nuts2TH, potDistTH, scadaPV) ←
    (if negb (is_empty dfTH) then
       '(nuts2TH, potDistTH, areasDistTH) ← x07GetDistribution rowsTH "thermal_power";
       mret (Some nuts2TH, Some potDistTH, removeUsedAreas rowsTH scadaPV)
     else
       mret (None, None, scadaPV));
  nuts2TH ← local "nuts2TH" nuts2TH;
  potDistTH ← local "potDistTH" potDistTH;
  mret (nuts2TH, rowsTH, potDistTH, dfTH, scadaPV).

End Collaborators.

(** Returns [prodAgreggated]: with thermal production, the thermal and the
    PV column under the index ['time(UTC)']; without, the PV column alone
    under the index of [dfPV]. *)
Definition s07CalculateAggregatedProduction (dfTH dfPV : list Q)
    (nameNuts2 : option string) : Frame :=
  if negb (is_empty dfTH) then
    mkFrame (Some "time(UTC)"%string)
            [("Pthermal_" +:+ str nameNuts2, Values dfTH);
             ("Ppv_" +:+ str nameNuts2, Values dfPV)]
  else
    mkFrame (Some "time"%string) [("Ppv_" +:+ str nameNuts2, Values dfPV)].

(** [df[k] = c]: an existing column keeps its place. *)
Fixpoint column_set (k : string) (c : Column) (cols : list (string * Column))
  : list (string * Column) :=
  match cols with
  | [] => [(k, c)]
  | (k', c') :: cols' =>
      if String.eqb k' k then (k', c) :: cols' else (k', c') :: column_set k c cols'
  end.

(** The drill-down table of one sub-region (lines 433-437): the columns
    whose label starts with the name, relabelled by the second piece of
    their label, assigned one by one to an empty frame. *)
Definition s09_nuts3 (nuts2Dist : Frame) (name : string) : Res Frame :=
  let nuts3Cols := filter (fun c => String.prefix name (fst c) = true) (columns nuts2Dist) in
  newNuts3Cols ← mapM (fun c => getitem (split_on "_" (fst c)) 1) nuts3Cols;
  let dfNuts3 :=
    fold_left (fun df kc => column_set (fst kc) (snd kc) df)
              (zip newNuts3Cols (map snd nuts3Cols)) [] in
  mret (reset_index (mkFrame (index_name nuts2Dist) dfNuts3)).

(** The result of [s09SaveResults]: the relabelled aggregate, the
    drill-down tables and the combined dictionary, which are the elements
    of [output] in this order. *)
Record Output : Type := mkOutput {
  aggregated : Frame;
  drilldown : list Frame;
  combined : Dict
}.

Definition s09SaveResults (prodAgreggated nuts2Dist : Frame) (dfTH : list Q)
    (potDistTH potDistPV : Dict) (opexTH opexPV : Q) : Res Output :=
  let prodAgreggated := reset_index prodAgreggated in
  let dfColumns := map fst (columns prodAgreggated) in
  dfColumns ← setitem dfColumns 1 "Pthermal"%string;
  dfColumns ← setitem dfColumns 2 "Ppv"%string;
  let prodAgreggated := set_columns dfColumns prodAgreggated in
  let namesNuts3 :=
    unique [] (map (fun c => hd EmptyString (split_on "_" (fst c))) (columns nuts2Dist)) in
  tables ← mapM (s09_nuts3 nuts2Dist) namesNuts3;
  let potPV := map (fun kv => (fst kv +:+ "_pv", snd kv)) potDistPV in
  let potTH := map (fun kv => (fst kv +:+ "_thermal", snd kv)) potDistTH in
  let combinedDict := if negb (is_empty dfTH) then dict_merge potTH potPV
                      else potPV in
  let '(opexTotTH, opexTotPV) := x08CalculateOpex combinedDict opexTH opexPV in
  let combinedDict := dict_set "opex_thermal" opexTotTH combinedDict in
  let combinedDict := dict_set "opex_pv" opexTotPV combinedDict in
  mret (mkOutput prodAgreggated tables combinedDict).

(** ** model.py: the remaining steps, and executeModel *)








(** [a + b] on two series aligned on their index: where only one of them
    has a value the sum is NaN, written [None]. *)
Fixpoint series_plus (xs ys : list Q) : list (option Q) :=
  match xs, ys with
  | [], _ => map (fun _ => None) ys
  | _, [] => map (fun _ => None) xs
  | x :: xs', y :: ys' => Some (x + y) :: series_plus xs' ys'
  end.

(** [sum((a, b))] on two series: [0 + a + b]. *)
Definition sum_pair (ab : list Q * list Q) : list (option Q) :=
  series_plus (map (fun x => 0 + x) (fst ab)) (snd ab).

(** [pd.DataFrame(series).sum(axis=0)] on series that may hold NaN, which
    the sum skips. *)
Definition df_sum_skipna (series : list (list (option Q))) : list Q :=
  df_sum (map (map (default 0)) series).

(** The blend of line 311: per region, the tracked series times the
    tracking fraction plus the fixed series times the rest. *)
Definition blend (tracking : Q) (prodPVTracking prodPVFixed : list (list Q))
  : list (list (option Q)) :=
  map sum_pair
      (zip (map (map (fun x => x * tracking)) prodPVTracking)
           (map (map (fun x => x * (1 - tracking))) prodPVFixed)).

(** [df.add_suffix(s)] *)
Definition add_suffix (s : string) (df : Frame) : Frame :=
  mkFrame (index_name df) (map (fun c => (fst c +:+ s, snd c)) (columns df)).

(** Returns [nuts2Dist].  The frames are those of [x07GetDistribution]:
    the index of the thermal one is named ['time(UTC)'] and that of the PV
    one ['time'], so that, with thermal production, after the two
    [reset_index] and the [concat], the column ['time'] is dropped and
    ['time(UTC)'] becomes the index again over the thermal and then the PV
    columns; without, the PV frame has its axis renamed. *)
Definition s08CalculateDistributedProduction (dfTH : list Q)
    (nuts2TH nuts2PV : Frame) : Frame :=
  if negb (is_empty dfTH) then
    mkFrame (Some "time(UTC)"%string)
            (columns (add_suffix "_Pthermal" nuts2TH)
             ++ columns (add_suffix "_Ppv" nuts2PV))
  else
    mkFrame (Some "time(UTC)"%string) (columns (add_suffix "_Ppv" nuts2PV)).

Section Steps.

Variable transform : Q -> Q -> Q * Q.
Variable get_pvgis_tmy : Q -> Q -> Res (list Q * list Q).
Variable get_pvgis_hourly : Q -> Q -> Z -> Q -> Q -> Q -> Z -> Q -> Res (list Q).

(** Returns [nameNuts2, nuts2PV, potDistPV, dfPV].  The second call of
    [x06GetPVProduction] works on the rows as the first has left them. *)
Definition s06CalculatePVProduction (scadaPV : list Row)
    (areaPV minGhiPV landUsePV tilt azimuth tracking loss : Q)
    (convertCoord : bool) (year : Z)
  : Res (option string * Frame * Dict * list Q) :=
  let '(rowsPV, nameNuts2) := x04GetRegions scadaPV areaPV minGhiPV in
  '(rowsPV, prodPVTracking) ←
    x06GetPVProduction transform get_pvgis_hourly rowsPV landUsePV tilt azimuth
                       1 loss convertCoord year;
  '(rowsPV, prodPVFixed) ←
    x06GetPVProduction transform get_pvgis_hourly rowsPV landUsePV tilt azimuth
                       0 loss convertCoord year;
  let prodPV := blend tracking prodPVTracking prodPVFixed in
  let dfPV := df_sum_skipna prodPV in
  '(nuts2PV, potDistPV, areasDistPV) ← x07GetDistribution rowsPV "pv_power";
  mret (nameNuts2, nuts2PV, potDistPV, dfPV).


End Steps.

(** ** Notions used to state the properties *)

(** The cumulative area of [rows] on top of [before]; [totalArea] is the
    case [before = 0], and the running [currentSum] of [x04GetRegions] is
    of this form. *)
Definition areaFrom (before : Q) (rows : list Row) : Q :=
  fold_left (fun acc r => acc + Area_m2 r) rows before.

(** The region name [x04GetRegions] captures: from the first row, if any. *)
Definition regionName (scada : list Row) : option string :=
  match scada with
  | [] => None
  | row :: _ => Some (drop_last (Region row))
  end.

(** The rows of a catalogue that pass the test of line 560. *)
Definition Qualifies (scada : list Row) (minGHI : Q) (row : Row) : Prop :=
  qualifies (str (regionName scada)) minGHI row = true.

#[export] Instance Qualifies_dec scada minGHI row : Decision (Qualifies scada minGHI row).
Proof. unfold Qualifies. apply _. Defined.

(** The catalogue of the scenario of the specification, and its selection
    for the target area 600 and the floor 2000. *)
Definition scenario : list Row :=
  [csvRow "E1" 2200 500 2200 0 0; csvRow "E1" 2000 300 2000 0 0].

Definition scenario_selected : list Row :=
  [csvRow "E1" 2200 500 2200 0 0; csvRow "E1" 2000 100 2000 0 0].

(** The thermal records that share the compound key of a PV row, and the
    area the reconciliation leaves in the row: theirs subtracted from its
    own, in the order of the loop. *)
Definition usedBy (rowsTH : list Row) (row : Row) : list Row :=
  filter (fun region => sameKey region row = true) rowsTH.

Definition reconciledArea (rowsTH : list Row) (row : Row) : Q :=
  fold_left (fun a region => a - Area_m2 region) (usedBy rowsTH row) (Area_m2 row).

Definition reconciled (rowsTH : list Row) (row : Row) : Row :=
  match usedBy rowsTH row with
  | [] => row
  | _ :: _ => set_Area_m2 (reconciledArea rowsTH row) row
  end.

(** A sub-region of 2000 km2, and stand-ins for the services: coordinates
    that need no conversion, a TMY answer with no hours, and a PV service
    that is linear in the peak power (1 Wh per kW in its single hour). *)
Definition largeRow : Row := csvRow "E1" 2000 2000000000 2000 0 0.

Definition no_transform (x y : Q) : Q * Q := (x, y).

Definition no_hours_tmy (lat lon : Q) : Res (list Q * list Q) := Ok ([], []).

Definition linear_pvgis (lat lon : Q) (year : Z) (tilt azimuth peakpower : Q)
    (tracking : Z) (loss : Q) : Res (list Q) :=
  Ok [peakpower].

(** ** Notions used to state the further properties *)

(** The sum of a list of numbers. *)
Definition Qsum (l : list Q) : Q := fold_right Qplus 0 l.

(** The area that the thermal records take from a PV row: the areas of
    the records that share its compound key. *)
Definition usedArea (rowsTH : list Row) (row : Row) : Q :=
  Qsum (map Area_m2 (usedBy rowsTH row)).


(** Two rows that differ at most in [Area_m2]. *)
Definition sameButArea (r r' : Row) : Prop :=
  set_Area_m2 0 r' = set_Area_m2 0 r.



(** The installed power of the rows: the key that the production models
    store in each, 0 where it has not been stored. *)
Definition installedPower (rows : list Row) : Q :=
  Qsum (map (fun r => default 0 (power_installed r)) rows).

(** A selected row after a production model has processed it, against the
    row as selected: the columns of the file are the same and the
    installed power is the area times the land use, over 1e6. *)
Definition processedFrom (landUse : Q) (r r' : Row) : Prop :=
  Region r' = Region r /\ Threshold r' = Threshold r /\
  Area_m2 r' = Area_m2 r /\
  Median_Radiation r' = Median_Radiation r /\
  Median_Radiation_X r' = Median_Radiation_X r /\
  Median_Radiation_Y r' = Median_Radiation_Y r /\
  power_installed r' = Some (Area_m2 r * landUse / e6).

(** A TMY answer of two hours, the same everywhere. *)
Definition two_hours_tmy (lat lon : Q) : Res (list Q * list Q) :=
  Ok ([800; 900], [10; 11]).

(** [d.get(k)] *)
Fixpoint dict_get (k : string) (d : Dict) : option Q :=
  match d with
  | [] => None
  | (k', v) :: d' => if String.eqb k' k then Some v else dict_get k d'
  end.


(** The capacities that step 09 combines when there is thermal
    production: the thermal ones under [k_thermal], then the PV ones under
    [k_pv]. *)
Definition combinedCapacities (potDistTH potDistPV : Dict) : Dict :=
  dict_merge (map (fun kv => (fst kv +:+ "_thermal", snd kv)) potDistTH)
             (map (fun kv => (fst kv +:+ "_pv", snd kv)) potDistPV).

(** The first table of the result of a run with thermal production. *)
Definition labelled (dfTH dfPV : list Q) : Frame :=
  mkFrame None [("time(UTC)"%string, IndexColumn);
                ("Pthermal"%string, Values dfTH);
                ("Ppv"%string, Values dfPV)].


(** The series a row holds under a label (none of its hours when it
    holds no such key). *)
Definition seriesAt (label : string) (r : Row) : list Q :=
  match getSeries label r with
  | Ok s => s
  | Raise _ => []
  end.

(** The summed series of a region: the series of its rows, added hour by
    hour. *)
Definition regionSeries (rows : list Row) (label i : string) : list Q :=
  df_sum (map (seriesAt label) (filter (fun r => i = Region r) rows)).

(** The hours of the longest summed series. *)
Definition tableHours (rows : list Row) (label : string) : nat :=
  fold_right Nat.max 0%nat
             (map (fun i => length (regionSeries rows label i)) (regionsOf rows)).

(** The regions whose summed series has every hour of the table, in order
    of first occurrence. *)
Definition completeRegions (rows : list Row) (label : string) : list string :=
  filter (fun i => length (regionSeries rows label i) = tableHours rows label)
         (regionsOf rows).


(** * Python numbers: the sizing and the selection as Python computes them

    The definitions above take numbers to be exact.  The definitions of
    this module take them as Python has them: an [int] of any size or a
    [float], which is an IEEE 754 binary64 value whose operations round to
    nearest, ties to even.  They are used where rounding, overflow or the
    kind of a number decides a property. *)

Module Py.
Import PrimFloat SpecFloat FloatOps.
#[local] Set Warnings "-inexact-float".

Inductive PyNum : Type :=
  | PyInt (z : Z)
  | PyFloat (f : float).

(** [float(z)]: the binary64 value nearest to [z]; an int that rounds
    beyond the largest float raises. *)
Definition float_of_int (z : Z) : Res float :=
  let f := SF2Prim (binary_normalize prec emax z 0 false) in
  if is_infinity f then Raise OverflowError else Ok f.

(** The operand of a float operation. *)
Definition to_float (x : PyNum) : Res float :=
  match x with
  | PyInt z => float_of_int z
  | PyFloat f => Ok f
  end.

(** [x + y], [x - y] and [x * y]: exact on two ints; otherwise both
    operands are taken as floats and the result is rounded.  A float result
    out of range is an infinity, not an exception. *)
Definition arith (on_int : Z -> Z -> Z) (on_float : float -> float -> float)
    (x y : PyNum) : Res PyNum :=
  match x, y with
  | PyInt a, PyInt b => Ok (PyInt (on_int a b))
  | _, _ =>
      a ← to_float x;
      b ← to_float y;
      mret (PyFloat (on_float a b))
  end.

Definition pyadd : PyNum -> PyNum -> Res PyNum := arith Z.add add.
Definition pysub : PyNum -> PyNum -> Res PyNum := arith Z.sub sub.
Definition pymul : PyNum -> PyNum -> Res PyNum := arith Z.mul mul.

(** An int as an unrounded binary number. *)
Definition unrounded (z : Z) : spec_float :=
  match z with
  | Z0 => S754_zero false
  | Zpos m => S754_finite false m 0
  | Zneg m => S754_finite true m 0
  end.

(** [x / y]: the quotient of two ints is the float nearest to the exact
    quotient; otherwise both operands are taken as floats.  A zero divisor
    raises. *)
Definition pytruediv (x y : PyNum) : Res PyNum :=
  match x, y with
  | PyInt a, PyInt b =>
      if (b =? 0)%Z then Raise ZeroDivisionError
      else
        let q := SF2Prim (SFdiv prec emax (unrounded a) (unrounded b)) in
        if is_infinity q then Raise OverflowError else Ok (PyFloat q)
  | _, _ =>
      a ← to_float x;
      b ← to_float y;
      if (b =? 0)%float then Raise ZeroDivisionError
      else mret (PyFloat (a / b))
  end.

(** The exact value of a number. *)
Inductive Value : Type :=
  | NaN
  | NegInf
  | Finite (q : Q)
  | PosInf.

Definition value_of_float (f : float) : Value :=
  match Prim2SF f with
  | S754_zero _ => Finite 0
  | S754_infinity s => if s then NegInf else PosInf
  | S754_nan => NaN
  | S754_finite s m e =>
      Finite (inject_Z (if s then Z.neg m else Z.pos m) * 2 ^ e)
  end.

Definition value (x : PyNum) : Value :=
  match x with
  | PyInt z => Finite (inject_Z z)
  | PyFloat f => value_of_float f
  end.

Definition lt_value (u v : Value) : bool :=
  match u, v with
  | NaN, _ | _, NaN => false
  | _, NegInf => false
  | NegInf, _ => true
  | PosInf, _ => false
  | Finite _, PosInf => true
  | Finite a, Finite b => Qlt_bool a b
  end.

Definition le_value (u v : Value) : bool :=
  match u, v with
  | NaN, _ | _, NaN => false
  | NegInf, _ => true
  | _, NegInf => false
  | _, PosInf => true
  | PosInf, _ => false
  | Finite a, Finite b => Qle_bool a b
  end.

(** [x < y] and [x <= y]: two ints and two floats compare as such; an int
    and a float compare by their exact values.  Nothing compares with a
    NaN. *)
Definition pylt (x y : PyNum) : bool :=
  match x, y with
  | PyInt a, PyInt b => (a <? b)%Z
  | PyFloat a, PyFloat b => (a <? b)%float
  | _, _ => lt_value (value x) (value y)
  end.

Definition pyle (x y : PyNum) : bool :=
  match x, y with
  | PyInt a, PyInt b => (a <=? b)%Z
  | PyFloat a, PyFloat b => (a <=? b)%float
  | _, _ => le_value (value x) (value y)
  end.

(** [x > y] and [x >= y] *)
Definition pygt (x y : PyNum) : bool := pylt y x.
Definition pyge (x y : PyNum) : bool := pyle y x.

(** A Python value that is a number or [None], used as an operand. *)
Definition num (v : option PyNum) : Res PyNum :=
  match v with
  | Some x => Ok x
  | None => Raise TypeError
  end.

(** The literal [1.0e+06]. *)
Definition e6 : PyNum := PyFloat 1e6.

(** ** model.py: x03GetAvailableArea *)

Fixpoint next_not_none (i : Z) (parameters : list (option PyNum)) : Z :=
  match parameters with
  | [] => (-1)%Z
  | Some _ :: _ => i
  | None :: rest => next_not_none (i + 1)%Z rest
  end.

Definition x03GetAvailableArea (parameters : list (option PyNum))
    (cost landUse : PyNum) : Res (PyNum * PyNum * PyNum) :=
  let index := next_not_none 0 parameters in
  if (index =? 2)%Z then
    capex ← getitem parameters 2;
    d ← pymul cost e6;
    c ← num capex;
    power ← pytruediv c d;
    n ← pymul power e6;
    area ← pytruediv n landUse;
    mret (area, power, c)
  else if (index =? 1)%Z then
    p ← getitem parameters 1 ≫= num;
    n ← pymul p e6;
    area ← pytruediv n landUse;
    let power := p in
    n ← pymul power cost;
    capex ← pymul n e6;
    mret (area, power, capex)
  else
    area ← getitem parameters 0;
    a ← num area;
    n ← pymul a landUse;
    power ← pytruediv n e6;
    n ← pymul power cost;
    capex ← pymul n e6;
    mret (a, power, capex).

(** ** model.py: x04GetRegions *)

(** A row of the use-case CSV, as [iterrows] yields it: the numbers of a
    column of whole numbers are ints, those of a column with decimals are
    floats. *)
Record Row : Type := mkRow {
  Region : string;
  Threshold : PyNum;
  Area_m2 : PyNum;
  Median_Radiation : PyNum;
  Median_Radiation_X : PyNum;
  Median_Radiation_Y : PyNum
}.

(** [row['Area_m2'] = v] *)
Definition set_Area_m2 (v : PyNum) (r : Row) : Row :=
  mkRow (Region r) (Threshold r) v (Median_Radiation r)
        (Median_Radiation_X r) (Median_Radiation_Y r).

(** The test of line 560, once the region name is known. *)
Definition qualifies (nameNuts2 : string) (minGHI : PyNum) (row : Row) : bool :=
  pygt (Area_m2 row) (PyInt 0)
  && negb (String.eqb (Region row) nameNuts2)
  && pyge (Threshold row) minGHI.

(** The region name after the first two lines of the loop body. *)
Definition captureName (nameNuts2 : option string) (row : Row) : string :=
  match nameNuts2 with
  | None => drop_last (Region row)
  | Some n => n
  end.

(** The [for] loop over the rows still to come, from the state
    ([currentSum], [nameNuts2], [rows]) reached so far.  The first branch
    is the one that ends in [break]. *)
Fixpoint x04_loop (scada : list Row) (area minGHI : PyNum)
    (currentSum : PyNum) (nameNuts2 : option string) (rows : list Row)
  : Res (list Row * option string) :=
  match scada with
  | [] => mret (rows, nameNuts2)
  | row :: rest =>
      let name := captureName nameNuts2 row in
      if qualifies name minGHI row then
        s ← pyadd currentSum (Area_m2 row);
        if pygt s area then
          v ← pysub area currentSum;
          let row := set_Area_m2 v row in
          currentSum ← pyadd currentSum (Area_m2 row);
          mret (rows ++ [row], Some name)
        else
          currentSum ← pyadd currentSum (Area_m2 row);
          x04_loop rest area minGHI currentSum (Some name) (rows ++ [row])
      else
        x04_loop rest area minGHI currentSum (Some name) rows
  end.

Definition x04GetRegions (scada : list Row) (area minGHI : PyNum)
  : Res (list Row * option string) :=
  x04_loop scada area minGHI (PyInt 0) None [].

(** ** Notions used to state the properties of the selection *)

(** The running sum of the loop: [currentSum] after the rows have been
    added to it, each at its [Area_m2], in order. *)
Fixpoint areaFrom (currentSum : PyNum) (rows : list Row) : Res PyNum :=
  match rows with
  | [] => mret currentSum
  | row :: rest =>
      s ← pyadd currentSum (Area_m2 row);
      areaFrom s rest
  end.

(** The cumulative [Area_m2] of a list of rows, added from 0 in list
    order. *)
Definition totalArea (rows : list Row) : Res PyNum := areaFrom (PyInt 0) rows.

(** The region name [x04GetRegions] captures: from the first row, if any. *)
Definition regionName (scada : list Row) : option string :=
  match scada with
  | [] => None
  | row :: _ => Some (drop_last (Region row))
  end.

(** The rows of a catalogue that pass the test of line 560. *)
Definition Qualifies (scada : list Row) (minGHI : PyNum) (row : Row) : Prop :=
  qualifies (str (regionName scada)) minGHI row = true.

#[export] Instance Qualifies_dec scada minGHI row :
  Decision (Qualifies scada minGHI row).
Proof. unfold Qualifies. apply _. Defined.

(** A catalogue whose areas are whole numbers (ints), and one whose areas
    are floats. *)
Definition IntAreas (scada : list Row) : Prop :=
  Forall (fun r => exists z, Area_m2 r = PyInt z) scada.

Definition FloatAreas (scada : list Row) : Prop :=
  Forall (fun r => exists f, Area_m2 r = PyFloat f) scada.

(** The area of a row of whole numbers, and the total of such rows. *)
Definition wholeArea (r : Row) : Z :=
  match Area_m2 r with
  | PyInt z => z
  | PyFloat _ => 0%Z
  end.

Definition wholeTotal (rows : list Row) : Z :=
  fold_right Z.add 0%Z (map wholeArea rows).

(** A row as read from the CSV. *)
Definition csvRow (region : string) (threshold area : PyNum) : Row :=
  mkRow region threshold area threshold (PyInt 0) (PyInt 0).

(** The catalogue of the scenario of the specification, and its selection
    for the target area 600 and the floor 2000. *)
Definition scenario : list Row :=
  [csvRow "E1" (PyInt 2200) (PyInt 500); csvRow "E1" (PyInt 2000) (PyInt 300)].

Definition scenario_selected : list Row :=
  [csvRow "E1" (PyInt 2200) (PyInt 500); csvRow "E1" (PyInt 2000) (PyInt 100)].

(** Two rows with areas 0.3 and 1.0, and what is selected of them for the
    target 0.9. *)
Definition tenths : list Row :=
  [csvRow "E1" (PyInt 2200) (PyFloat 0.3); csvRow "E1" (PyInt 2000) (PyFloat 1)].

Definition tenths_selected : list Row :=
  [csvRow "E1" (PyInt 2200) (PyFloat 0.3);
   csvRow "E1" (PyInt 2000) (PyFloat 0.6000000000000001)].

(** Three rows whose areas 1, 3 * 2^-53 and 3 * 2^-53 add up, exactly, to
    1 + 3 * 2^-52. *)
Definition ulps : list Row :=
  [csvRow "E1" (PyInt 2200) (PyFloat 1);
   csvRow "E1" (PyInt 2100) (PyFloat 0x3p-53);
   csvRow "E1" (PyInt 2000) (PyFloat 0x3p-53)].

(** The sum of exact values, when all are finite. *)
Definition exactTotal (rows : list Row) : option Q :=
  fold_right (fun r acc =>
                match value (Area_m2 r), acc with
                | Finite q, Some a => Some (q + a)
                | _, _ => None
                end)
             (Some 0) rows.

(** ** Notions used to state the properties of the sizing *)




End Py.

(** ** The two embeddings of the selection

    A row of whole numbers, as an exact row: on such rows the Python
    arithmetic of the selection is exact. *)

Definition whole (x : Py.PyNum) : Z :=
  match x with
  | Py.PyInt z => z
  | Py.PyFloat _ => 0%Z
  end.

Definition exactRow (r : Py.Row) : Row :=
  csvRow (Py.Region r)
         (inject_Z (whole (Py.Threshold r)))
         (inject_Z (whole (Py.Area_m2 r)))
         (inject_Z (whole (Py.Median_Radiation r)))
         (inject_Z (whole (Py.Median_Radiation_X r)))
         (inject_Z (whole (Py.Median_Radiation_Y r))).


(** * Properties *)

(** ** Numbers and the result monad *)

Lemma Qlt_bool_iff (x y : Q) : Qlt_bool x y = true <-> x < y.
Proof.
  unfold Qlt_bool. rewrite negb_true_iff.
  destruct (Qle_bool y x) eqn:E.
  - apply Qle_bool_iff in E. split; [discriminate | intros H; lra].
  - split; [intros _ | reflexivity].
    destruct (Qlt_le_dec x y) as [H | H]; [exact H |].
    apply Qle_bool_iff in H. congruence.
Qed.

Lemma Qlt_bool_false (x y : Q) : Qlt_bool x y = false <-> y <= x.
Proof.
  unfold Qlt_bool. rewrite negb_false_iff. apply Qle_bool_iff.
Qed.




(** ** x03GetAvailableArea *)

(** ** x04GetRegions *)

Lemma areaFrom_cons (before : Q) (row : Row) (rows : list Row) :
  areaFrom before (row :: rows) = areaFrom (before + Area_m2 row) rows.
Proof. reflexivity. Qed.

Lemma totalArea_areaFrom (rows : list Row) : totalArea rows = areaFrom 0 rows.
Proof. reflexivity. Qed.

(** The name is captured once: a loop that starts at the first row with no
    name runs as the loop that starts with the name of that row. *)
Lemma x04_loop_capture (row : Row) (rest : list Row) (area minGHI cs : Q)
    (rows : list Row) :
  x04_loop (row :: rest) area minGHI cs None rows
  = x04_loop (row :: rest) area minGHI cs (Some (drop_last (Region row))) rows.
Proof. reflexivity. Qed.

(** The loop, from any state with a name: it selects the qualifying rows
    among the first [n] rows at their full area and then either reaches the
    end of the catalogue or truncates row [n] and stops. *)
Lemma x04_loop_spec (nm : string) (area minGHI : Q) (scada : list Row) :
  forall (cs : Q) (rows : list Row),
  exists n : nat,
    let pre := filter (fun r => qualifies nm minGHI r = true) (take n scada) in
    (cs <= area -> areaFrom cs pre <= area) /\
    ((n = length scada /\
      x04_loop scada area minGHI cs (Some nm) rows = (rows ++ pre, Some nm))
     \/
     (exists r, scada !! n = Some r /\
        qualifies nm minGHI r = true /\
        area < areaFrom cs pre + Area_m2 r /\
        x04_loop scada area minGHI cs (Some nm) rows
        = (rows ++ pre ++ [set_Area_m2 (area - areaFrom cs pre) r], Some nm))).
Proof.
  induction scada as [| row rest IH]; intros cs rows.
  - exists 0%nat. cbn. split; [auto |]. left. split; [reflexivity |].
    rewrite app_nil_r. reflexivity.
  - cbn [x04_loop captureName].
    destruct (qualifies nm minGHI row) eqn:Hq.
    + destruct (Qlt_bool area (cs + Area_m2 row)) eqn:Hlt.
      * exists 0%nat. cbn. split; [auto |]. right. exists row.
        apply Qlt_bool_iff in Hlt. auto.
      * apply Qlt_bool_false in Hlt.
        destruct (IH (cs + Area_m2 row) (rows ++ [row])) as (n & Hle & Hn).
        exists (S n). cbn [take]. rewrite filter_cons_True by exact Hq.
        cbn zeta in *. rewrite areaFrom_cons. split; [auto |].
        destruct Hn as [[-> Hn] | (r & Hr & Hqr & Hover & Hn)];
          rewrite <- !app_assoc in Hn; cbn [app] in Hn.
        -- left. split; [reflexivity | exact Hn].
        -- right. exists r. cbn [app]. auto.
    + destruct (IH cs rows) as (n & Hle & Hn).
      exists (S n). cbn [take].
      rewrite filter_cons_False by (rewrite Hq; discriminate).
      cbn zeta in *. split; [exact Hle |].
      destruct Hn as [[-> Hn] | (r & Hr & Hqr & Hover & Hn)].
      * left. split; [reflexivity | exact Hn].
      * right. exists r. auto.
Qed.

Lemma qualifies_floor (nm : string) (minGHI : Q) (r : Row) :
  qualifies nm minGHI r = true -> minGHI <= Threshold r.
Proof.
  unfold qualifies. rewrite !andb_true_iff. intros [_ H].
  apply Qle_bool_iff. exact H.
Qed.

Lemma qualifies_positive (nm : string) (minGHI : Q) (r : Row) :
  qualifies nm minGHI r = true -> 0 < Area_m2 r.
Proof.
  unfold qualifies. rewrite !andb_true_iff. intros [[H _] _].
  apply Qlt_bool_iff. exact H.
Qed.

(** The selection from a catalogue, without the accumulators: the loop
    lemma at the initial state. *)
Lemma x04GetRegions_spec (scada : list Row) (area minGHI : Q) :
  exists n : nat,
    let pre := filter (Qualifies scada minGHI) (take n scada) in
    (0 <= area -> totalArea pre <= area) /\
    ((n = length scada /\
      x04GetRegions scada area minGHI = (pre, regionName scada))
     \/
     (exists r, scada !! n = Some r /\
        Qualifies scada minGHI r /\
        area < totalArea pre + Area_m2 r /\
        x04GetRegions scada area minGHI
        = (pre ++ [set_Area_m2 (area - totalArea pre) r], regionName scada))).
Proof.
  destruct scada as [| row rest].
  - exists 0%nat. cbn. split; [auto |]. left. auto.
  - unfold x04GetRegions. rewrite x04_loop_capture.
    destruct (x04_loop_spec (drop_last (Region row)) area minGHI (row :: rest) 0 [])
      as (n & Hle & Hn).
    exists n. exact (conj Hle Hn).
Qed.

(** C8. Every selected record has a threshold at or above the floor. *)
Theorem x04GetRegions_floor (scada : list Row) (area minGHI : Q) :
  Forall (fun r => minGHI <= Threshold r) (fst (x04GetRegions scada area minGHI)).
Proof.
  assert (Hpre : forall n,
             Forall (fun r => minGHI <= Threshold r)
                    (filter (Qualifies scada minGHI) (take n scada))).
  { intros n. apply Forall_forall. intros r Hr.
    apply list_elem_of_filter in Hr as [Hq _].
    exact (qualifies_floor _ _ _ Hq). }
  destruct (x04GetRegions_spec scada area minGHI) as (n & _ & Hn).
  destruct Hn as [[_ Heq] | (r & _ & Hq & _ & Heq)]; rewrite Heq; cbn [fst].
  - apply Hpre.
  - apply Forall_app. split; [apply Hpre |].
    apply Forall_singleton. exact (qualifies_floor _ _ _ Hq).
Qed.

(** C6, as stated, fails: with target area 0 the first qualifying row is
    selected, with its area truncated to 0. *)
Lemma x04GetRegions_zero_target_selects :
  fst (x04GetRegions scenario 0 2000) = [csvRow "E1" 2200 0 2200 0 0] /\
  fst (x04GetRegions scenario 0 2000) <> [].
Proof. split; [reflexivity | discriminate]. Qed.

Lemma x04_loop_zero_target (nm : string) (minGHI : Q) (scada : list Row) :
  x04_loop scada 0 minGHI 0 (Some nm) []
  = (match head (filter (fun r => qualifies nm minGHI r = true) scada) with
     | Some r => [set_Area_m2 0 r]
     | None => []
     end,
     Some nm).
Proof.
  induction scada as [| row rest IH]; [reflexivity |].
  cbn [x04_loop captureName].
  destruct (qualifies nm minGHI row) eqn:Hq.
  - rewrite filter_cons_True by exact Hq. cbn [head].
    assert (Hlt : Qlt_bool 0 (0 + Area_m2 row) = true).
    { apply Qlt_bool_iff. pose proof (qualifies_positive _ _ _ Hq). lra. }
    rewrite Hlt. reflexivity.
  - rewrite filter_cons_False by (rewrite Hq; discriminate). exact IH.
Qed.

(** C6, amended. For a catalogue that is not empty and the target area 0,
    the selection is the first qualifying row with its area truncated to
    0, or no record when no row qualifies, and the region name is the
    region of the first row without its last character. *)
Theorem x04GetRegions_zero_target (first : Row) (rest : list Row) (minGHI : Q) :
  let scada := first :: rest in
  x04GetRegions scada 0 minGHI
  = (match head (filter (Qualifies scada minGHI) scada) with
     | Some r => [set_Area_m2 0 r]
     | None => []
     end,
     Some (drop_last (Region first))).
Proof.
  intros scada. subst scada. unfold x04GetRegions.
  rewrite x04_loop_capture. apply x04_loop_zero_target.
Qed.

(** ** The area reconciliation *)

Lemma usedBy_set_Area_m2 (rowsTH : list Row) (v : Q) (row : Row) :
  usedBy rowsTH (set_Area_m2 v row) = usedBy rowsTH row.
Proof. reflexivity. Qed.

Lemma set_Area_m2_twice (v w : Q) (row : Row) :
  set_Area_m2 v (set_Area_m2 w row) = set_Area_m2 v row.
Proof. reflexivity. Qed.

Lemma usedBy_none (rowsTH : list Row) (row : Row) :
  Forall (fun region => sameKey region row <> true) rowsTH ->
  usedBy rowsTH row = [].
Proof.
  unfold usedBy. induction 1 as [| region rowsTH Hne _ IH]; [reflexivity |].
  rewrite filter_cons_False by exact Hne. exact IH.
Qed.

(** One more thermal record in front: its pass, then the others. *)
Lemma reconciled_cons (region : Row) (rowsTH : list Row) (row : Row) :
  reconciled rowsTH
    (if sameKey region row
     then set_Area_m2 (Area_m2 row - Area_m2 region) row
     else row)
  = reconciled (region :: rowsTH) row.
Proof.
  unfold reconciled, reconciledArea.
  destruct (sameKey region row) eqn:Hkey.
  - rewrite usedBy_set_Area_m2. unfold usedBy at 3 4.
    rewrite filter_cons_True by exact Hkey. fold (usedBy rowsTH row).
    destruct (usedBy rowsTH row) as [| r used]; [reflexivity |].
    rewrite set_Area_m2_twice. reflexivity.
  - unfold usedBy at 3 4.
    rewrite filter_cons_False by (rewrite Hkey; discriminate).
    reflexivity.
Qed.

Lemma removeUsedAreas_map (rowsTH : list Row) :
  forall scadaPV : list Row,
    removeUsedAreas rowsTH scadaPV = map (reconciled rowsTH) scadaPV.
Proof.
  induction rowsTH as [| region rowsTH IH]; intros scadaPV.
  - cbn. symmetry. apply map_id.
  - cbn [removeUsedAreas fold_left]. fold (removeUsedAreas rowsTH (subtractArea region scadaPV)).
    rewrite IH. unfold subtractArea. rewrite map_map.
    apply map_ext. intros row. apply reconciled_cons.
Qed.

(** C5. The reconciliation maps every row of the PV catalogue, in place
    and in order, to itself when no thermal record has its (Region,
    Threshold) pair, and otherwise to the same row with the areas of the
    thermal records that have its pair subtracted from its [Area_m2]; no
    row is deleted, and the area is not clamped: 100 m2 less 150 m2 is
    left as -50 m2. *)
Theorem removeUsedAreas_frame (rowsTH scadaPV : list Row) :
  removeUsedAreas rowsTH scadaPV = map (reconciled rowsTH) scadaPV /\
  length (removeUsedAreas rowsTH scadaPV) = length scadaPV /\
  Forall (fun row =>
            (Forall (fun region => Region region <> Region row
                                   \/ ~ Threshold region == Threshold row) rowsTH
             -> reconciled rowsTH row = row)
            /\ Region (reconciled rowsTH row) = Region row
            /\ Threshold (reconciled rowsTH row) = Threshold row)
         scadaPV /\
  (removeUsedAreas [csvRow "E1" 2000 150 2000 0 0]
                   [csvRow "E1" 2000 100 2000 0 0; csvRow "E1" 1800 100 1800 0 0]
   = [csvRow "E1" 2000 (100 - 150) 2000 0 0; csvRow "E1" 1800 100 1800 0 0]
   /\ 100 - 150 < 0).
Proof.
  split; [apply removeUsedAreas_map |].
  split; [rewrite removeUsedAreas_map; apply length_map |].
  split; [| split; reflexivity].
  apply Forall_forall. intros row _. split; [| split].
  - intros Hother. unfold reconciled.
    assert (Hnone : usedBy rowsTH row = []); [| rewrite Hnone; reflexivity].
    apply usedBy_none.
    eapply Forall_impl; [exact Hother |].
    cbn. intros region Hdiff Hkey. unfold sameKey in Hkey.
    apply andb_true_iff in Hkey as [HR HT].
    apply String.eqb_eq in HR. apply Qeq_bool_iff in HT.
    destruct Hdiff as [Hd | Hd]; [congruence |].
    apply Hd. symmetry. exact HT.
  - unfold reconciled. destruct (usedBy rowsTH row); reflexivity.
  - unfold reconciled. destruct (usedBy rowsTH row); reflexivity.
Qed.

(** ** x08CalculateOpex *)

Lemma x08_fold (dictData : Dict) :
  forall totalTH totalPV : Q,
    fold_left x08_step dictData (totalTH, totalPV)
    = (fold_left Qplus
         (map snd (filter (fun kv => contains "thermal" (fst kv) = true) dictData))
         totalTH,
       fold_left Qplus
         (map snd (filter (fun kv => negb (contains "thermal" (fst kv))
                                     && contains "pv" (fst kv) = true) dictData))
         totalPV).
Proof.
  induction dictData as [| [dKey dValue] rest IH]; intros totalTH totalPV;
    [reflexivity |].
  cbn [fold_left x08_step].
  destruct (contains "thermal" dKey) eqn:Hth.
  - rewrite IH.
    rewrite filter_cons_True by exact Hth.
    rewrite filter_cons_False by (cbn [fst]; rewrite Hth; discriminate).
    reflexivity.
  - destruct (contains "pv" dKey) eqn:Hpv; rewrite IH.
    + rewrite filter_cons_False by (cbn [fst]; rewrite Hth; discriminate).
      rewrite filter_cons_True by (cbn [fst]; rewrite Hth, Hpv; reflexivity).
      reflexivity.
    + rewrite filter_cons_False by (cbn [fst]; rewrite Hth; discriminate).
      rewrite filter_cons_False by (cbn [fst]; rewrite Hth, Hpv; discriminate).
      reflexivity.
Qed.

(** C9, as stated, fails: a capacity whose key contains both ['thermal']
    and ['pv'] is counted as thermal only, so the PV total is not the sum
    over every key that contains ['pv']. *)
Lemma x08CalculateOpex_key_with_both :
  x08CalculateOpex [("pv_thermal"%string, 1)] 10 5 = (10, 0) /\
  ~ snd (x08CalculateOpex [("pv_thermal"%string, 1)] 10 5)
    == snd (spec_opex [("pv_thermal"%string, 1)] 10 5).
Proof. split; [reflexivity |]. intros H. discriminate H. Qed.

(** C9, amended. The thermal total is the sum of the capacities whose key
    contains ['thermal'] times the thermal unit cost; the PV total is the
    sum of the capacities whose key contains ['pv'] and not ['thermal']
    times the PV unit cost.  For {A_thermal: 1000, B_pv: 2000} and the
    unit costs 10 and 5 the totals are (10000, 10000). *)
Theorem x08CalculateOpex_totals (dictData : Dict) (opexTH opexPV : Q) :
  x08CalculateOpex dictData opexTH opexPV
  = (sumWhere (contains "thermal") dictData * opexTH,
     sumWhere (fun k => negb (contains "thermal" k) && contains "pv" k) dictData
     * opexPV)
  /\ x08CalculateOpex [("A_thermal"%string, 1000); ("B_pv"%string, 2000)] 10 5
     = (10000, 10000).
Proof.
  split; [| reflexivity].
  unfold x08CalculateOpex, sumWhere. rewrite x08_fold. reflexivity.
Qed.

(** ** x06GetPVProduction *)

(** Between the ceiling and a thousand times the ceiling, the peak power
    is divided by 1000 and the factor stays 1: the second test reads the
    peak power that has already been divided. *)
Lemma x06_scale_factor_lost (potMW : Q) :
  e8 < potMW * e3 -> potMW * e3 <= e8 * e3 ->
  x06_scale potMW = (potMW / e3, 1).
Proof.
  intros Hover Hbelow. unfold x06_scale.
  assert (H1 : Qlt_bool e8 (potMW * e3) = true) by (apply Qlt_bool_iff; exact Hover).
  assert (H2 : Qlt_bool e8 (potMW / e3 * e3) = false).
  { apply Qlt_bool_false. unfold e3, e8 in *. field_simplify (potMW / 1000 * 1000). lra. }
  rewrite H1, H2. reflexivity.
Qed.

(** C4, on the code: a sub-region of 2000 km2 at 100 W/m2 has a peak power
    of 2e8 kW, above the ceiling.  The query is made for 2e5 kW and the
    answer is multiplied by 1, not by 1000: with a service that is linear
    in the peak power, the series is a thousandth of what the query for
    the full peak power yields. *)
Theorem x06GetPVProduction_not_scaled_back :
  x06_scale (Area_m2 largeRow * 100 / e6) = (Area_m2 largeRow * 100 / e6 / e3, 1) /\
  exists (rows : list Row) (series full : list Q),
    x06GetPVProduction no_transform linear_pvgis [largeRow] 100 30 180 1 14 false 2019
    = Ok (rows, [series]) /\
    (P ← linear_pvgis 0 0 2019 30 180 (Area_m2 largeRow * 100 / e6 * e3) 1 14;
     mret (unscaled P)) = Ok full /\
    Forall2 Qeq series [1 # 5] /\
    Forall2 Qeq full [200] /\
    ~ Forall2 Qeq series full.
Proof.
  split; [reflexivity |].
  eexists _, _, _. split; [reflexivity |]. split; [reflexivity |].
  split; [| split].
  - constructor; [reflexivity | constructor].
  - constructor; [reflexivity | constructor].
  - intros H. inversion H as [| x y l l' Hxy _]; subst. discriminate Hxy.
Qed.

(** ** The run without thermal allocation *)

Lemma x05GetThermalProduction_no_rows
    (transform : Q -> Q -> Q * Q) (get_pvgis_tmy : Q -> Q -> Res (list Q * list Q))
    (landUse effTH effOp aperture : Q) (convertCoord : bool) (year : Z) :
  x05GetThermalProduction transform get_pvgis_tmy [] landUse effTH effOp aperture
                          convertCoord year
  = Ok ([], []).
Proof. reflexivity. Qed.

(** C1, on the code: when the thermal selection is empty,
    [s05CalculateThermalProduction] reaches its [return] with [nuts2TH]
    unbound and raises; and on the PV-only table of step 07, whatever the
    other arguments, [s09SaveResults] raises at the assignment of the
    third column label. *)
Theorem s05CalculateThermalProduction_empty_allocation
    (transform : Q -> Q -> Q * Q) (get_pvgis_tmy : Q -> Q -> Res (list Q * list Q))
    (scadaTH scadaPV : list Row)
    (areaTH minGhiTH landUseTH effTH effOp aperture : Q)
    (convertCoord : bool) (year : Z) :
  fst (x04GetRegions scadaTH areaTH minGhiTH) = [] ->
  s05CalculateThermalProduction transform get_pvgis_tmy scadaTH scadaPV
    areaTH minGhiTH landUseTH effTH effOp aperture convertCoord year
  = Raise (UnboundLocalError "nuts2TH")
  /\
  forall (dfPV : list Q) (nameNuts2 : option string) (nuts2Dist : Frame)
         (potDistTH potDistPV : Dict) (opexTH opexPV : Q),
    s09SaveResults (s07CalculateAggregatedProduction [] dfPV nameNuts2)
                   nuts2Dist [] potDistTH potDistPV opexTH opexPV
    = Raise IndexError.
Proof.
  intros Hempty. split.
  - unfold s05CalculateThermalProduction.
    destruct (x04GetRegions scadaTH areaTH minGhiTH) as [rowsTH nameNuts2].
    cbn [fst] in Hempty. subst rowsTH.
    rewrite x05GetThermalProduction_no_rows. reflexivity.
  - intros. reflexivity.
Qed.

Lemma s05CalculateThermalProduction_empty_allocation_witness :
  fst (x04GetRegions [csvRow "E1" 1400 500 1400 0 0] 100 2000) = [] /\
  s05CalculateThermalProduction no_transform no_hours_tmy
    [csvRow "E1" 1400 500 1400 0 0] [csvRow "E1" 1400 500 1400 0 0]
    100 2000 50 (45 # 100) (65 # 100) (50 # 100) false 2019
  = Raise (UnboundLocalError "nuts2TH").
Proof.
  split; [reflexivity |].
  apply (s05CalculateThermalProduction_empty_allocation
           no_transform no_hours_tmy
           [csvRow "E1" 1400 500 1400 0 0] [csvRow "E1" 1400 500 1400 0 0]
           100 2000 50 (45 # 100) (65 # 100) (50 # 100) false 2019).
  reflexivity.
Defined.

(** * Further properties *)

(** ** The sizing triple *)

Lemma validateField_bounds (v : option Q) (limitUp x : Q) :
  0 <= limitUp -> validateField v limitUp = Some x -> 0 <= x /\ x <= limitUp.
Proof.
  intros Hlim. destruct v as [y |]; [| discriminate]. cbn.
  unfold validateLimits.
  destruct (Qle_bool 0 y) eqn:H0; destruct (Qle_bool y limitUp) eqn:H1; cbn;
    intros [= <-]; try (split; [lra | exact Hlim]).
  apply Qle_bool_iff in H0, H1. split; assumption.
Qed.

Lemma validateField_idempotent (v : option Q) (limitUp : Q) :
  0 <= limitUp ->
  validateField (validateField v limitUp) limitUp = validateField v limitUp.
Proof.
  intros Hlim. destruct (validateField v limitUp) as [x |] eqn:E; [| reflexivity].
  destruct (validateField_bounds _ _ _ Hlim E) as [H0 H1].
  cbn. unfold validateLimits.
  apply Qle_bool_iff in H0, H1. rewrite H0, H1. reflexivity.
Qed.

Lemma validateField_None (v : option Q) (limitUp : Q) :
  validateField v limitUp = None <-> v = None.
Proof.
  destruct v as [x |]; cbn; [| tauto].
  destruct (negb (validateLimits x 0 limitUp)); split; discriminate.
Qed.

Lemma limits_nonneg : 0 <= 10 ^ 10 /\ 0 <= 10 ^ 12 /\ 0 <= 5 * 10 ^ 11.
Proof. repeat split; discriminate. Qed.

(** What the sizing block leaves: a non-null entry, and entries within
    their limits. *)
Lemma validateSizing_bounds (area power capex : option Q) :
  match validateSizing area power capex with
  | (area', power', capex') =>
      (area' <> None \/ power' <> None \/ capex' <> None) /\
      (forall x, area' = Some x -> 0 <= x /\ x <= 10 ^ 10) /\
      (forall x, power' = Some x -> 0 <= x /\ x <= 10 ^ 12) /\
      (forall x, capex' = Some x -> 0 <= x /\ x <= 5 * 10 ^ 11)
  end.
Proof.
  destruct limits_nonneg as (La & Lp & Lc).
  unfold validateSizing.
  pose proof (validateField_bounds area (10 ^ 10)) as Ba.
  pose proof (validateField_bounds power (10 ^ 12)) as Bp.
  pose proof (validateField_bounds capex (5 * 10 ^ 11)) as Bc.
  destruct (validateField area (10 ^ 10)) as [a' |];
    destruct (validateField power (10 ^ 12)) as [p' |];
    destruct (validateField capex (5 * 10 ^ 11)) as [c' |];
    (split; [auto; try (left; discriminate);
             try (right; left; discriminate); try (right; right; discriminate) |]);
    (split; [intros x [= <-]; auto; try (split; [lra | exact La]) |]);
    (split; [intros x E; try discriminate E; injection E as <-; auto |]);
    intros x E; try discriminate E; injection E as <-; auto.
Qed.

(** X3. The sizing block of the validator: what it returns always has a
    non-null entry; every entry it returns lies within the limits of its
    field; power and capex are null exactly when they were, and the area
    only if it was; validating again changes nothing. *)
Theorem validateSizing_result (area power capex : option Q) :
  match validateSizing area power capex with
  | (area', power', capex') =>
      (area' <> None \/ power' <> None \/ capex' <> None) /\
      (forall x, area' = Some x -> 0 <= x /\ x <= 10 ^ 10) /\
      (forall x, power' = Some x -> 0 <= x /\ x <= 10 ^ 12) /\
      (forall x, capex' = Some x -> 0 <= x /\ x <= 5 * 10 ^ 11) /\
      (area' = None -> area = None) /\
      (power' = None <-> power = None) /\
      (capex' = None <-> capex = None) /\
      validateSizing area' power' capex' = (area', power', capex')
  end.
Proof.
  destruct limits_nonneg as (La & Lp & Lc).
  pose proof (validateSizing_bounds area power capex) as Hb.
  unfold validateSizing in *.
  pose proof (validateField_idempotent area _ La) as Ia.
  pose proof (validateField_idempotent power _ Lp) as Ip.
  pose proof (validateField_idempotent capex _ Lc) as Ic.
  pose proof (validateField_None area (10 ^ 10)) as Na.
  pose proof (validateField_None power (10 ^ 12)) as Np.
  pose proof (validateField_None capex (5 * 10 ^ 11)) as Nc.
  destruct (validateField area (10 ^ 10)) as [a' |];
    destruct (validateField power (10 ^ 12)) as [p' |];
    destruct (validateField capex (5 * 10 ^ 11)) as [c' |];
    destruct Hb as (H1 & H2 & H3 & H4);
    (split; [exact H1 |]); (split; [exact H2 |]);
    (split; [exact H3 |]); (split; [exact H4 |]);
    (split; [try discriminate; tauto |]);
    (split; [tauto |]); (split; [tauto |]);
    try (rewrite Ia, Ip, Ic; reflexivity).
  reflexivity.
Qed.



(** ** The selection against the catalogue *)




(** ** The reconciliation, its arithmetic and the selection *)

Lemma Qsum_app (l1 l2 : list Q) : Qsum (l1 ++ l2) == Qsum l1 + Qsum l2.
Proof.
  unfold Qsum. induction l1 as [| x l1 IH]; cbn; [ring |].
  rewrite IH. ring.
Qed.

Lemma areaFrom_Qsum (l : list Row) :
  forall before : Q, areaFrom before l == before + Qsum (map Area_m2 l).
Proof.
  induction l as [| r l IH]; intros before; cbn; [ring |].
  fold (areaFrom (before + Area_m2 r) l). rewrite IH.
  unfold Qsum. cbn. ring.
Qed.

Lemma totalArea_Qsum (l : list Row) : totalArea l == Qsum (map Area_m2 l).
Proof. rewrite totalArea_areaFrom, areaFrom_Qsum. ring. Qed.

Lemma subtract_Qsum (l : list Row) :
  forall a : Q,
    fold_left (fun a region => a - Area_m2 region) l a
    == a - Qsum (map Area_m2 l).
Proof.
  induction l as [| r l IH]; intros a; cbn; [ring |].
  rewrite IH. unfold Qsum. cbn. ring.
Qed.

Lemma reconciled_area (rowsTH : list Row) (row : Row) :
  Area_m2 (reconciled rowsTH row) == Area_m2 row - usedArea rowsTH row.
Proof.
  unfold reconciled, usedArea, reconciledArea.
  destruct (usedBy rowsTH row) as [| r used] eqn:E.
  - cbn. ring.
  - cbn [Area_m2 set_Area_m2]. apply subtract_Qsum.
Qed.

Lemma reconciled_sameButArea (rowsTH : list Row) (row : Row) :
  sameButArea row (reconciled rowsTH row).
Proof.
  unfold sameButArea, reconciled.
  destruct (usedBy rowsTH row); reflexivity.
Qed.

Lemma usedArea_app (rs rs' : list Row) (row : Row) :
  usedArea (rs ++ rs') row == usedArea rs row + usedArea rs' row.
Proof.
  unfold usedArea, usedBy. rewrite filter_app, map_app. apply Qsum_app.
Qed.

(** X8. Reconciling against two allocations one after the other is
    reconciling against both at once, and every PV row ends with its own
    area less what each allocation takes under its key, nothing else of
    the row changed: the same allocation applied twice subtracts twice. *)
Theorem removeUsedAreas_composes (rs rs' scadaPV : list Row) :
  removeUsedAreas rs' (removeUsedAreas rs scadaPV)
  = removeUsedAreas (rs ++ rs') scadaPV /\
  Forall2 (fun row row' =>
             sameButArea row row' /\
             Area_m2 row' == Area_m2 row - usedArea rs row - usedArea rs' row)
          scadaPV (removeUsedAreas rs' (removeUsedAreas rs scadaPV)).
Proof.
  assert (Hcomp : removeUsedAreas rs' (removeUsedAreas rs scadaPV)
                  = removeUsedAreas (rs ++ rs') scadaPV).
  { unfold removeUsedAreas. rewrite fold_left_app. reflexivity. }
  split; [exact Hcomp |].
  rewrite Hcomp, removeUsedAreas_map. clear Hcomp.
  induction scadaPV as [| row pv IH]; cbn [map]; [constructor |].
  constructor; [| exact IH].
  split; [apply reconciled_sameButArea |].
  rewrite reconciled_area, usedArea_app. ring.
Qed.


















(** ** The distribution *)

Lemma mapM_cons {A B : Type} (f : A -> Res B) (x : A) (l : list A) :
  mapM f (x :: l) = (y ← f x; k ← mapM f l; mret (y :: k)).
Proof. reflexivity. Qed.

Lemma mapM_Ok {A B : Type} (f : A -> Res B) (l : list A) :
  forall k : list B,
    mapM f l = Ok k <-> Forall2 (fun x y => f x = Ok y) l k.
Proof.
  induction l as [| x l IH]; intros k.
  - cbn. split; [intros [= <-]; constructor | intros H; inversion H; reflexivity].
  - rewrite mapM_cons. split.
    + destruct (f x) as [y | e] eqn:Hx; [| discriminate].
      destruct (mapM f l) as [k' | e] eqn:Hl; [| discriminate].
      intros [= <-]. constructor; [exact Hx | apply IH; reflexivity].
    + intros H. inversion H as [| ? y ? k' Hy Hk]; subst.
      apply IH in Hk. rewrite Hy, Hk. reflexivity.
Qed.

Lemma unique_spec (l : list string) :
  forall seen : list string,
    NoDup (unique seen l) /\
    forall x, x ∈ unique seen l <-> x ∈ l /\ x ∉ seen.
Proof.
  induction l as [| y l IH]; intros seen; cbn.
  - split; [constructor |]. intros x. rewrite elem_of_nil. tauto.
  - destruct (bool_decide (y ∈ seen)) eqn:Hy.
    + apply bool_decide_eq_true in Hy. destruct (IH seen) as [Hnd Hin].
      split; [exact Hnd |]. intros x. rewrite Hin, elem_of_cons.
      split; [tauto |]. intros [[-> | Hx] Hns]; [contradiction | tauto].
    + apply bool_decide_eq_false in Hy. destruct (IH (y :: seen)) as [Hnd Hin].
      split.
      * constructor; [| exact Hnd]. rewrite Hin, elem_of_cons. tauto.
      * intros x. rewrite !elem_of_cons, Hin, elem_of_cons.
        destruct (decide (x = y)) as [-> | Hne]; tauto.
Qed.

Lemma regionsOf_spec (rows : list Row) :
  NoDup (regionsOf rows) /\
  forall r, r ∈ rows -> Region r ∈ regionsOf rows.
Proof.
  unfold regionsOf. destruct (unique_spec (map Region rows) []) as [Hnd Hin].
  split; [exact Hnd |]. intros r Hr. apply Hin.
  split; [| apply not_elem_of_nil].
  apply list_elem_of_In, in_map, list_elem_of_In. exact Hr.
Qed.

Lemma fold_left_Qplus (l : list Q) :
  forall a : Q, fold_left Qplus l a == a + Qsum l.
Proof.
  induction l as [| x l IH]; intros a; cbn; [ring |].
  rewrite IH. unfold Qsum. cbn. ring.
Qed.

(** The sum over distinct keys of a term that holds [v] at one key. *)
Lemma Qsum_at_key (k : string) (v : Q) (g : string -> Q) (keys : list string) :
  NoDup keys ->
  Qsum (map (fun i => if decide (i = k) then v + g i else g i) keys)
  == (if decide (k ∈ keys) then v else 0) + Qsum (map g keys).
Proof.
  induction 1 as [| i keys Hi Hnd IH]; cbn.
  - destruct (decide (k ∈ [])) as [H | _]; [inversion H | ring].
  - unfold Qsum in *. cbn [fold_right map]. rewrite IH.
    destruct (decide (i = k)) as [-> | Hne].
    + destruct (decide (k ∈ keys)); [contradiction |].
      destruct (decide (k ∈ k :: keys)) as [_ | H]; [ring |].
      destruct H. left.
    + destruct (decide (k ∈ keys)) as [Hin | Hnin].
      * destruct (decide (k ∈ i :: keys)) as [_ | H]; [ring |].
        destruct H. right. exact Hin.
      * destruct (decide (k ∈ i :: keys)) as [H | _]; [| ring].
        apply elem_of_cons in H as [-> | H]; contradiction.
Qed.

(** Grouping rows by region loses nothing: the sums of a quantity over
    the members of each region add up to its sum over all rows. *)
Lemma Qsum_by_region (f : Row -> Q) (keys : list string) (rows : list Row) :
  NoDup keys ->
  Forall (fun r => Region r ∈ keys) rows ->
  Qsum (map (fun i => Qsum (map f (filter (fun r => i = Region r) rows))) keys)
  == Qsum (map f rows).
Proof.
  intros Hnd. induction 1 as [| r rows Hr _ IH].
  - cbn. induction keys as [| i keys IHk]; cbn; [reflexivity |].
    inversion Hnd; subst. unfold Qsum in *. cbn. rewrite IHk by assumption. ring.
  - assert (Hext : map (fun i => Qsum (map f (filter (fun r0 => i = Region r0)
                                                     (r :: rows)))) keys
                   = map (fun i => if decide (i = Region r)
                                   then f r + Qsum (map f (filter (fun r0 => i = Region r0) rows))
                                   else Qsum (map f (filter (fun r0 => i = Region r0) rows)))
                         keys).
    { apply map_ext. intros i. destruct (decide (i = Region r)) as [E | E].
      - rewrite filter_cons_True by exact E. reflexivity.
      - rewrite filter_cons_False by exact E. reflexivity. }
    rewrite Hext, (Qsum_at_key (Region r) (f r)) by exact Hnd.
    destruct (decide (Region r ∈ keys)); [| contradiction].
    rewrite IH. unfold Qsum. cbn. ring.
Qed.

Lemma zip_fst {A B : Type} (R : A -> B -> Prop) (l : list A) (k : list B) :
  Forall2 R l k -> map fst (zip l k) = l.
Proof. induction 1; cbn; [| f_equal]; auto. Qed.

Lemma zip_snd {A B : Type} (R : A -> B -> Prop) (l : list A) (k : list B) :
  Forall2 R l k -> map snd (zip l k) = k.
Proof. induction 1; cbn; [| f_equal]; auto. Qed.

Lemma Forall2_map_r {A B C : Type} (P : A -> C -> Prop) (f : B -> C)
    (l : list A) (k : list B) :
  Forall2 (fun x y => P x (f y)) l k -> Forall2 P l (map f k).
Proof. induction 1; cbn; constructor; auto. Qed.

Lemma Qsum_Forall2 {A : Type} (F : A -> Q) (l : list A) (ys : list Q) :
  Forall2 (fun i y => y == F i) l ys -> Qsum ys == Qsum (map F l).
Proof.
  induction 1 as [| i y l ys Hy _ IH]; [reflexivity |].
  unfold Qsum in *. cbn. rewrite Hy, IH. reflexivity.
Qed.

Lemma mapM_getPower (l : list Row) (ps : list Q) :
  mapM getPower l = Ok ps ->
  ps = map (fun r => default 0 (power_installed r)) l.
Proof.
  intros H. apply mapM_Ok in H.
  induction H as [| r p l ps Hr _ IH]; [reflexivity |].
  cbn. rewrite <- IH. f_equal.
  unfold getPower in Hr. destruct (power_installed r); [| discriminate].
  injection Hr as <-. reflexivity.
Qed.

(** The sums of one region, when they are returned. *)
Lemma x07_region_Ok (rows : list Row) (label i : string) (s : list Q * Q * Q) :
  x07_region rows label i = Ok s ->
  snd (fst s) == Qsum (map Area_m2 (filter (fun r => i = Region r) rows)) /\
  snd s == Qsum (map (fun r => default 0 (power_installed r))
                     (filter (fun r => i = Region r) rows)).
Proof.
  unfold x07_region.
  destruct (mapM (getSeries label) _) as [nuts | e]; [| discriminate].
  destruct (mapM getPower _) as [pots | e] eqn:Hp; [| discriminate].
  cbn. intros [= <-]. cbn [fst snd].
  rewrite !fold_left_Qplus, (mapM_getPower _ _ Hp). split; ring.
Qed.

Lemma mapM_getSeries (label : string) (l : list Row) (nuts : list (list Q)) :
  mapM (getSeries label) l = Ok nuts -> nuts = map (seriesAt label) l.
Proof.
  intros H. apply mapM_Ok in H.
  induction H as [| r s l nuts Hr _ IH]; [reflexivity |].
  cbn. rewrite <- IH. f_equal. unfold seriesAt. rewrite Hr. reflexivity.
Qed.

(** The summed series of one region, when it is returned. *)
Lemma x07_region_series (rows : list Row) (label i : string)
    (s : list Q * Q * Q) :
  x07_region rows label i = Ok s -> fst (fst s) = regionSeries rows label i.
Proof.
  unfold x07_region, regionSeries.
  destruct (mapM (getSeries label) _) as [nuts | e] eqn:Hs; [| discriminate].
  destruct (mapM getPower _) as [pots | e]; [| discriminate].
  cbn. intros [= <-]. cbn [fst]. rewrite (mapM_getSeries _ _ _ Hs). reflexivity.
Qed.

Lemma zip_map_r {A B : Type} (f : A -> B) (l : list A) :
  zip l (map f l) = map (fun x => (x, f x)) l.
Proof. induction l as [| x l IH]; cbn; [| rewrite IH]; reflexivity. Qed.

Lemma Forall2_map_eq {A B C : Type} (f : B -> C) (g : A -> C)
    (l : list A) (k : list B) :
  Forall2 (fun x y => f y = g x) l k -> map f k = map g l.
Proof. induction 1; cbn; [| f_equal]; auto. Qed.

Lemma filter_all {A : Type} (P : A -> Prop) `{forall x, Decision (P x)}
    (l : list A) :
  Forall P l -> filter P l = l.
Proof.
  induction 1 as [| x l Hx _ IH]; [reflexivity |].
  rewrite filter_cons_True by exact Hx. rewrite IH. reflexivity.
Qed.

Lemma filter_nothing {A : Type} (P : A -> Prop) `{forall x, Decision (P x)}
    (l : list A) :
  Forall (fun x => ~ P x) l -> filter P l = [].
Proof.
  induction 1 as [| x l Hx _ IH]; [reflexivity |].
  rewrite filter_cons_False by exact Hx. exact IH.
Qed.

(** Dropping the incomplete columns of a table given by its keys. *)
Lemma dropna_keys (f : string -> list Q) (keys : list string) :
  dropna (map (fun i => (i, f i)) keys)
  = map (fun i => (i, f i))
        (filter (fun i => length (f i)
                          = fold_right Nat.max 0%nat
                                       (map (fun i => length (f i)) keys))
                keys).
Proof.
  unfold dropna, hours. rewrite map_map. cbn [snd].
  generalize (fold_right Nat.max 0%nat (map (fun i => length (f i)) keys)).
  intros n. induction keys as [| i keys IH]; [reflexivity |]. cbn [map].
  destruct (decide (length (f i) = n)) as [Hi | Hi].
  - rewrite !filter_cons_True by exact Hi. cbn [map]. rewrite IH. reflexivity.
  - rewrite !filter_cons_False by exact Hi. exact IH.
Qed.

(** What the distribution returns, when it returns: the columns of the
    table, the keys, and the sums of each region. *)
Lemma x07GetDistribution_Ok (rows : list Row) (label : string)
    (nuts2 : Frame) (pots areas : Dict) :
  x07GetDistribution rows label = Ok (nuts2, pots, areas) ->
  columns nuts2
  = map (fun i => (i, Values (regionSeries rows label i)))
        (completeRegions rows label) /\
  map fst pots = regionsOf rows /\
  map fst areas = regionsOf rows /\
  Forall2 (fun i y => y == Qsum (map Area_m2
                                     (filter (fun r => i = Region r) rows)))
          (regionsOf rows) (map snd areas) /\
  Forall2 (fun i y => y == Qsum (map (fun r => default 0 (power_installed r))
                                     (filter (fun r => i = Region r) rows)))
          (regionsOf rows) (map snd pots).
Proof.
  unfold x07GetDistribution.
  destruct (mapM (x07_region rows label) (regionsOf rows)) as [sums | e] eqn:Hm;
    [| discriminate].
  cbn [mbind Res_bind]. destruct rows as [| r0 rows0] eqn:Hrows; [discriminate |].
  rewrite <- Hrows in *. clear Hrows r0 rows0.
  cbn. intros [= <- <- <-]. cbn [columns].
  apply mapM_Ok in Hm.
  assert (Ha : Forall2 (fun i y => y == Qsum (map Area_m2
                                        (filter (fun r => i = Region r) rows)))
                       (regionsOf rows) (map (fun s => snd (fst s)) sums)).
  { apply Forall2_map_r. eapply Forall2_impl; [exact Hm |]. cbn.
    intros i s Hs. exact (proj1 (x07_region_Ok _ _ _ _ Hs)). }
  assert (Hp : Forall2 (fun i y => y == Qsum (map (fun r => default 0 (power_installed r))
                                        (filter (fun r => i = Region r) rows)))
                       (regionsOf rows) (map snd sums)).
  { apply Forall2_map_r. eapply Forall2_impl; [exact Hm |]. cbn.
    intros i s Hs. exact (proj2 (x07_region_Ok _ _ _ _ Hs)). }
  assert (Hc : map (fun s : list Q * Q * Q => fst (fst s)) sums
               = map (regionSeries rows label) (regionsOf rows)).
  { apply Forall2_map_eq. eapply Forall2_impl; [exact Hm |]. cbn.
    intros i s Hs. exact (x07_region_series _ _ _ _ Hs). }
  split.
  { rewrite Hc, zip_map_r, dropna_keys, map_map. reflexivity. }
  split; [exact (zip_fst _ _ _ Hp) |].
  split; [exact (zip_fst _ _ _ Ha) |].
  rewrite (zip_snd _ _ _ Ha), (zip_snd _ _ _ Hp). split; assumption.
Qed.

Lemma x07_pots_total (rows : list Row) (label : string)
    (nuts2 : Frame) (pots areas : Dict) :
  x07GetDistribution rows label = Ok (nuts2, pots, areas) ->
  map fst pots = regionsOf rows /\
  Qsum (map snd pots) == installedPower rows.
Proof.
  intros H. destruct (x07GetDistribution_Ok _ _ _ _ _ H) as (_ & Hk & _ & _ & Hp).
  split; [exact Hk |].
  destruct (regionsOf_spec rows) as [Hnd Hin].
  rewrite (Qsum_Forall2 _ _ _ Hp), Qsum_by_region;
    [reflexivity | exact Hnd | apply Forall_forall; exact Hin].
Qed.








(** ** Step 05 when it returns *)

Lemma x05_region_Ok (transform : Q -> Q -> Q * Q)
    (get_pvgis_tmy : Q -> Q -> Res (list Q * list Q))
    (landUse effTH effOp aperture : Q) (convertCoord : bool)
    (r r' : Row) (prod : list Q) :
  x05_region transform get_pvgis_tmy landUse effTH effOp aperture convertCoord r
  = Ok (r', prod) ->
  processedFrom landUse r r' /\
  thermal_power r' = Some prod /\
  exists dni, prod = map (fun x => x * 1) (x02ThermalModel dni effTH effOp aperture).
Proof.
  unfold x05_region.
  destruct (if convertCoord || Qlt_bool 180 (Median_Radiation_Y r)
            then x01GetCoord transform r
            else (Median_Radiation_X r, Median_Radiation_Y r)) as [lon lat].
  destruct (get_pvgis_tmy lat lon) as [[dni temp_air] | e]; [| discriminate].
  cbn. intros [= <- <-]. cbn. repeat split. exists dni. reflexivity.
Qed.

Lemma x05GetThermalProduction_Ok (transform : Q -> Q -> Q * Q)
    (get_pvgis_tmy : Q -> Q -> Res (list Q * list Q))
    (rows : list Row) (landUse effTH effOp aperture : Q) (convertCoord : bool)
    (year : Z) (rows' : list Row) (prod : list (list Q)) :
  x05GetThermalProduction transform get_pvgis_tmy rows landUse effTH effOp
                          aperture convertCoord year
  = Ok (rows', prod) ->
  Forall2 (processedFrom landUse) rows rows' /\
  Forall2 (fun r' p => thermal_power r' = Some p) rows' prod /\
  Forall (fun p => exists dni,
              p = map (fun x => x * 1) (x02ThermalModel dni effTH effOp aperture))
         prod.
Proof.
  unfold x05GetThermalProduction.
  destruct (mapM _ rows) as [out | e] eqn:Hm; [| discriminate].
  cbn. intros [= <- <-]. apply mapM_Ok in Hm.
  induction Hm as [| r [r' p] rows out Hr _ IH]; cbn.
  - repeat split; constructor.
  - destruct IH as (IH1 & IH2 & IH3).
    destruct (x05_region_Ok _ _ _ _ _ _ _ _ _ _ Hr) as (H1 & H2 & H3).
    repeat split; constructor; assumption.
Qed.


Lemma Qsum_scaled (f : Row -> Q) (k : Q) (l : list Row) :
  Qsum (map (fun r => f r * k) l) == Qsum (map f l) * k.
Proof.
  unfold Qsum. induction l as [| r l IH]; cbn; [ring |]. rewrite IH. ring.
Qed.

Lemma installedPower_processed (landUse : Q) (rs rs' : list Row) :
  Forall2 (processedFrom landUse) rs rs' ->
  installedPower rs' == totalArea rs * landUse / e6 /\
  map Region rs' = map Region rs.
Proof.
  intros H. rewrite totalArea_Qsum. unfold installedPower.
  induction H as [| r r' rs rs' Hr _ [IH1 IH2]]; [split; [reflexivity | reflexivity] |].
  destruct Hr as (HR & _ & _ & _ & _ & _ & HP).
  split.
  - unfold Qsum in *. cbn. rewrite HP, IH1. cbn. unfold e6. field.
  - cbn. rewrite HR, IH2. reflexivity.
Qed.

(** What step 05 returns, when it returns. *)
Lemma s05_Ok (transform : Q -> Q -> Q * Q)
    (get_pvgis_tmy : Q -> Q -> Res (list Q * list Q))
    (scadaTH scadaPV : list Row)
    (areaTH minGhiTH landUseTH effTH effOp aperture : Q)
    (convertCoord : bool) (year : Z)
    (nuts2TH : Frame) (rowsTH : list Row) (potDistTH : Dict) (dfTH : list Q)
    (scadaPV' : list Row) :
  s05CalculateThermalProduction transform get_pvgis_tmy scadaTH scadaPV
    areaTH minGhiTH landUseTH effTH effOp aperture convertCoord year
  = Ok (nuts2TH, rowsTH, potDistTH, dfTH, scadaPV') ->
  exists prodTH areasDistTH,
    x05GetThermalProduction transform get_pvgis_tmy
      (fst (x04GetRegions scadaTH areaTH minGhiTH)) landUseTH effTH effOp
      (areaTH * aperture) convertCoord year
    = Ok (rowsTH, prodTH) /\
    dfTH = df_sum prodTH /\ dfTH <> [] /\
    x07GetDistribution rowsTH "thermal_power" = Ok (nuts2TH, potDistTH, areasDistTH) /\
    scadaPV' = removeUsedAreas rowsTH scadaPV.
Proof.
  unfold s05CalculateThermalProduction.
  destruct (x04GetRegions scadaTH areaTH minGhiTH) as [sel nameNuts2]. cbn [fst].
  destruct (x05GetThermalProduction _ _ sel _ _ _ _ _ _) as [[rows' prodTH] | e]
    eqn:H05; [| discriminate].
  cbn [mbind Res_bind].
  destruct (is_empty (df_sum prodTH)) eqn:Hempty; cbn [negb]; [discriminate |].
  destruct (x07GetDistribution rows' "thermal_power") as [[[n p] a] | e] eqn:H07;
    [| discriminate].
  cbn. intros [= <- <- <- <- <-].
  exists prodTH, a.
  split; [reflexivity |]. split; [reflexivity |].
  split; [| split; [exact H07 | reflexivity]].
  intros E. rewrite E in Hempty. discriminate Hempty.
Qed.



(** ** The run with no thermal area *)

Lemma series_add_zero (xs : list Q) :
  Forall (fun x => x == 0) xs ->
  forall ys : list Q,
    Forall (fun y => y == 0) ys -> Forall (fun z => z == 0) (series_add xs ys).
Proof.
  induction 1 as [| x xs Hx Hxs IH]; intros ys Hys; [exact Hys |].
  destruct Hys as [| y ys Hy Hys]; cbn.
  - constructor; assumption.
  - constructor; [rewrite Hx, Hy; ring | apply IH; exact Hys].
Qed.

Lemma df_sum_zero (series : list (list Q)) :
  Forall (Forall (fun x => x == 0)) series ->
  Forall (fun x => x == 0) (df_sum series).
Proof.
  intros H. unfold df_sum.
  assert (Hgen : forall acc : list Q,
             Forall (fun x => x == 0) acc ->
             Forall (fun x => x == 0) (fold_left series_add series acc)).
  { induction H as [| s series Hs _ IH]; intros acc Hacc; cbn; [exact Hacc |].
    apply IH. apply series_add_zero; assumption. }
  apply Hgen. constructor.
Qed.

Lemma x02ThermalModel_no_aperture (dni : list Q) (effTH effOp aperture : Q) :
  aperture == 0 ->
  Forall (fun x => x == 0)
         (map (fun x => x * 1) (x02ThermalModel dni effTH effOp aperture)).
Proof.
  intros H. unfold x02ThermalModel. rewrite map_map.
  apply Forall_forall. intros x Hx.
  apply list_elem_of_In, in_map_iff in Hx as (r & <- & _).
  rewrite H. unfold e6. field.
Qed.

Lemma usedArea_zero (rs : list Row) (row : Row) :
  Forall (fun x => Area_m2 x == 0) rs -> usedArea rs row == 0.
Proof.
  unfold usedArea, usedBy, Qsum.
  induction 1 as [| x rs Hx _ IH]; [reflexivity |].
  destruct (sameKey x row) eqn:Hk.
  - rewrite filter_cons_True by exact Hk. cbn. rewrite Hx, IH. ring.
  - rewrite filter_cons_False by (rewrite Hk; discriminate). exact IH.
Qed.

(** X12. With the thermal area 0 (what the validator makes of a null triple)
    step 05, when it returns, has selected one record of area 0: the
    thermal production is 0 at every hour, no power is installed, and the
    PV catalogue keeps all its areas. *)
Theorem s05CalculateThermalProduction_no_area (transform : Q -> Q -> Q * Q)
    (get_pvgis_tmy : Q -> Q -> Res (list Q * list Q))
    (scadaTH scadaPV : list Row)
    (minGhiTH landUseTH effTH effOp aperture : Q)
    (convertCoord : bool) (year : Z)
    (nuts2TH : Frame) (rowsTH : list Row) (potDistTH : Dict) (dfTH : list Q)
    (scadaPV' : list Row) :
  s05CalculateThermalProduction transform get_pvgis_tmy scadaTH scadaPV
    0 minGhiTH landUseTH effTH effOp aperture convertCoord year
  = Ok (nuts2TH, rowsTH, potDistTH, dfTH, scadaPV') ->
  (exists r, rowsTH = [r] /\ Area_m2 r = 0) /\
  Forall (fun x => x == 0) dfTH /\
  Qsum (map snd potDistTH) == 0 /\
  Forall2 (fun row row' => sameButArea row row' /\ Area_m2 row' == Area_m2 row)
          scadaPV scadaPV'.
Proof.
  intros H. apply s05_Ok in H as (prodTH & areas & H05 & -> & Hne & H07 & ->).
  destruct (x05GetThermalProduction_Ok _ _ _ _ _ _ _ _ _ _ _ H05)
    as (Hp & _ & Hprod).
  assert (Hsel : exists r0, fst (x04GetRegions scadaTH 0 minGhiTH)
                            = [set_Area_m2 0 r0]).
  { destruct scadaTH as [| row rest].
    - cbn in H05. injection H05 as <- <-. destruct Hne. reflexivity.
    - unfold x04GetRegions in *. rewrite x04_loop_capture, x04_loop_zero_target in *.
      cbn [fst] in *.
      destruct (head _) as [r0 |]; [exists r0; reflexivity |].
      rewrite x05GetThermalProduction_no_rows in H05.
      injection H05 as <- <-. destruct Hne. reflexivity. }
  destruct Hsel as [r0 Hsel]. rewrite Hsel in *.
  inversion Hp as [| r r' rs rs' Hr Hrs]; subst. inversion Hrs; subst.
  assert (Hzero : Forall (fun x => Area_m2 x == 0) [r']).
  { constructor; [| constructor]. destruct Hr as (_ & _ & -> & _). reflexivity. }
  split; [exists r'; split; [reflexivity | exact (proj1 (proj2 (proj2 Hr)))] |].
  split; [| split].
  - apply df_sum_zero. eapply Forall_impl; [exact Hprod |]. cbn.
    intros p (dni & ->). apply x02ThermalModel_no_aperture. ring.
  - destruct (x07_pots_total _ _ _ _ _ H07) as (_ & Hs).
    rewrite Hs. destruct (installedPower_processed _ _ _ Hp) as [-> _].
    cbn. unfold e6. field.
  - rewrite removeUsedAreas_map.
    induction scadaPV as [| row pv IH]; cbn [map]; constructor; [| exact IH].
    split; [apply reconciled_sameButArea |].
    rewrite reconciled_area, (usedArea_zero _ _ Hzero). ring.
Qed.

Lemma s05CalculateThermalProduction_no_area_witness :
  exists nuts2TH rowsTH potDistTH dfTH scadaPV',
    s05CalculateThermalProduction no_transform two_hours_tmy scenario scenario
      0 2000 50 (45 # 100) (65 # 100) (50 # 100) false 2019
    = Ok (nuts2TH, rowsTH, potDistTH, dfTH, scadaPV') /\
    (exists r, rowsTH = [r] /\ Area_m2 r = 0) /\
    Forall (fun x => x == 0) dfTH /\
    Qsum (map snd potDistTH) == 0 /\
    Forall2 (fun row row' => sameButArea row row' /\ Area_m2 row' == Area_m2 row)
            scenario scadaPV'.
Proof.
  eexists _, _, _, _, _.
  match goal with
  | |- ?A /\ _ => assert (H : A) by (cbv; reflexivity)
  end.
  split; [exact H |].
  exact (s05CalculateThermalProduction_no_area _ _ _ _ _ _ _ _ _ _ _ _ _ _ _ _ H).
Defined.

(** ** The PV production *)

(** X13. The rescaling of [x06GetPVProduction], in full.  Up to the ceiling of
    1e8 kW nothing is rescaled.  Above it the peak power is divided by
    1000, but the factor 1000 is applied only above 1e11 kW, and there the
    peak power handed to the service is still above the ceiling: the
    rescaling never both brings the query under the ceiling and scales
    the answer back. *)
Theorem x06_scale_regimes (potMW : Q) :
  (potMW * e3 <= e8 /\ x06_scale potMW = (potMW, 1))
  \/ (e8 < potMW * e3 /\ potMW * e3 <= e8 * e3 /\
      x06_scale potMW = (potMW / e3, 1))
  \/ (e8 * e3 < potMW * e3 /\
      x06_scale potMW = (potMW / e3, e3) /\
      e8 < fst (x06_scale potMW) * e3).
Proof.
  unfold x06_scale.
  destruct (Qlt_bool e8 (potMW * e3)) eqn:H1.
  - apply Qlt_bool_iff in H1. right.
    assert (Hback : potMW / e3 * e3 == potMW) by (unfold e3; field).
    destruct (Qlt_bool e8 (potMW / e3 * e3)) eqn:H2.
    + apply Qlt_bool_iff in H2. right. cbn [fst].
      split; [| split; [reflexivity | exact H2]].
      rewrite Hback in H2. unfold e3, e8 in *. lra.
    + apply Qlt_bool_false in H2. left.
      split; [exact H1 |]. split; [| reflexivity].
      rewrite Hback in H2. unfold e3, e8 in *. lra.
  - rewrite H1. apply Qlt_bool_false in H1. left.
    split; [exact H1 | reflexivity].
Qed.

Lemma x06_region_Ok (transform : Q -> Q -> Q * Q)
    (get_pvgis_hourly : Q -> Q -> Z -> Q -> Q -> Q -> Z -> Q -> Res (list Q))
    (landUse tilt azimuth : Q) (trackingtype : Z) (loss : Q)
    (convertCoord : bool) (year : Z) (r r' : Row) (series : list Q) :
  x06_region transform get_pvgis_hourly landUse tilt azimuth trackingtype loss
             convertCoord year r
  = Ok (r', series) ->
  processedFrom landUse r r' /\ pv_power r' = Some series.
Proof.
  unfold x06_region.
  destruct (if convertCoord then x01GetCoord transform r
            else (Median_Radiation_X r, Median_Radiation_Y r)) as [lon lat].
  destruct (x06_scale (Area_m2 r * landUse / e6)) as [potMW factor].
  destruct (get_pvgis_hourly _ _ _ _ _ _ _ _) as [P | e]; [| discriminate].
  cbn. intros [= <- <-]. cbn. repeat split.
Qed.

Lemma x06GetPVProduction_Ok (transform : Q -> Q -> Q * Q)
    (get_pvgis_hourly : Q -> Q -> Z -> Q -> Q -> Q -> Z -> Q -> Res (list Q))
    (rows : list Row) (landUse tilt azimuth : Q) (trackingtype : Z) (loss : Q)
    (convertCoord : bool) (year : Z) (rows' : list Row) (prod : list (list Q)) :
  x06GetPVProduction transform get_pvgis_hourly rows landUse tilt azimuth
                     trackingtype loss convertCoord year
  = Ok (rows', prod) ->
  Forall2 (processedFrom landUse) rows rows' /\
  Forall2 (fun r' p => pv_power r' = Some p) rows' prod.
Proof.
  unfold x06GetPVProduction.
  destruct (mapM _ rows) as [out | e] eqn:Hm; [| discriminate].
  cbn. intros [= <- <-]. apply mapM_Ok in Hm.
  induction Hm as [| r [r' p] rows out Hr _ IH]; cbn.
  - split; constructor.
  - destruct IH as (IH1 & IH2).
    destruct (x06_region_Ok _ _ _ _ _ _ _ _ _ _ _ _ Hr) as (H1 & H2).
    split; constructor; assumption.
Qed.

(** What step 06 returns, when it returns. *)
Lemma s06_Ok (transform : Q -> Q -> Q * Q)
    (get_pvgis_hourly : Q -> Q -> Z -> Q -> Q -> Q -> Z -> Q -> Res (list Q))
    (scadaPV : list Row)
    (areaPV minGhiPV landUsePV tilt azimuth tracking loss : Q)
    (convertCoord : bool) (year : Z)
    (nameNuts2 : option string) (nuts2PV : Frame) (potDistPV : Dict)
    (dfPV : list Q) :
  s06CalculatePVProduction transform get_pvgis_hourly scadaPV areaPV minGhiPV
    landUsePV tilt azimuth tracking loss convertCoord year
  = Ok (nameNuts2, nuts2PV, potDistPV, dfPV) ->
  exists rows1 prodPVTracking rows2 prodPVFixed areasDistPV,
    x06GetPVProduction transform get_pvgis_hourly
      (fst (x04GetRegions scadaPV areaPV minGhiPV)) landUsePV tilt azimuth
      1 loss convertCoord year
    = Ok (rows1, prodPVTracking) /\
    x06GetPVProduction transform get_pvgis_hourly rows1 landUsePV tilt azimuth
      0 loss convertCoord year
    = Ok (rows2, prodPVFixed) /\
    x07GetDistribution rows2 "pv_power" = Ok (nuts2PV, potDistPV, areasDistPV) /\
    dfPV = df_sum_skipna (blend tracking prodPVTracking prodPVFixed) /\
    nameNuts2 = snd (x04GetRegions scadaPV areaPV minGhiPV).
Proof.
  unfold s06CalculatePVProduction.
  destruct (x04GetRegions scadaPV areaPV minGhiPV) as [sel name]. cbn [fst snd].
  destruct (x06GetPVProduction _ _ sel _ _ _ 1%Z _ _ _) as [[rows1 T] | e] eqn:H1;
    [| discriminate].
  cbn [mbind Res_bind].
  destruct (x06GetPVProduction _ _ rows1 _ _ _ 0%Z _ _ _) as [[rows2 F] | e] eqn:H2;
    [| discriminate].
  cbn [mbind Res_bind].
  destruct (x07GetDistribution rows2 "pv_power") as [[[n p] a] | e] eqn:H7;
    [| discriminate].
  cbn. intros [= <- <- <- <-].
  exists rows1, T, rows2, F, a. repeat split; assumption.
Qed.

(** X14. The per-region PV table and the installed-power dictionary of step 06
    do not depend on the tracking fraction: when the step returns, it
    returns the same two for every other fraction, and they are the
    distribution of the rows as the second, fixed-mount call of
    [x06GetPVProduction] left them, whose [pv_power] is the fixed-mount
    series.  Only [dfPV] blends the two calls. *)
Theorem s06CalculatePVProduction_distribution (transform : Q -> Q -> Q * Q)
    (get_pvgis_hourly : Q -> Q -> Z -> Q -> Q -> Q -> Z -> Q -> Res (list Q))
    (scadaPV : list Row)
    (areaPV minGhiPV landUsePV tilt azimuth tracking loss : Q)
    (convertCoord : bool) (year : Z)
    (nameNuts2 : option string) (nuts2PV : Frame) (potDistPV : Dict)
    (dfPV : list Q) :
  s06CalculatePVProduction transform get_pvgis_hourly scadaPV areaPV minGhiPV
    landUsePV tilt azimuth tracking loss convertCoord year
  = Ok (nameNuts2, nuts2PV, potDistPV, dfPV) ->
  (forall tracking' : Q,
      exists dfPV',
        s06CalculatePVProduction transform get_pvgis_hourly scadaPV areaPV minGhiPV
          landUsePV tilt azimuth tracking' loss convertCoord year
        = Ok (nameNuts2, nuts2PV, potDistPV, dfPV')) /\
  exists rows1 prodPVTracking rows2 prodPVFixed areasDistPV,
    x06GetPVProduction transform get_pvgis_hourly
      (fst (x04GetRegions scadaPV areaPV minGhiPV)) landUsePV tilt azimuth
      1 loss convertCoord year
    = Ok (rows1, prodPVTracking) /\
    x06GetPVProduction transform get_pvgis_hourly rows1 landUsePV tilt azimuth
      0 loss convertCoord year
    = Ok (rows2, prodPVFixed) /\
    Forall2 (fun r p => pv_power r = Some p) rows2 prodPVFixed /\
    x07GetDistribution rows2 "pv_power" = Ok (nuts2PV, potDistPV, areasDistPV) /\
    dfPV = df_sum_skipna (blend tracking prodPVTracking prodPVFixed).
Proof.
  intros H.
  destruct (s06_Ok _ _ _ _ _ _ _ _ _ _ _ _ _ _ _ _ H)
    as (rows1 & T & rows2 & F & a & H1 & H2 & H7 & Hdf & Hname).
  split.
  - intros tracking'. eexists.
    unfold s06CalculatePVProduction.
    destruct (x04GetRegions scadaPV areaPV minGhiPV) as [sel name].
    cbn [fst snd] in *. rewrite H1. cbn [mbind Res_bind].
    rewrite H2. cbn [mbind Res_bind]. rewrite H7. cbn. subst nameNuts2.
    reflexivity.
  - exists rows1, T, rows2, F, a.
    destruct (x06GetPVProduction_Ok _ _ _ _ _ _ _ _ _ _ _ _ H2) as [_ Hpv].
    repeat split; assumption.
Qed.

Lemma s06CalculatePVProduction_distribution_witness :
  exists nameNuts2 nuts2PV potDistPV dfPV,
    s06CalculatePVProduction no_transform linear_pvgis scenario 600 2000
      100 30 180 (60 # 100) 14 false 2019
    = Ok (nameNuts2, nuts2PV, potDistPV, dfPV) /\
    forall tracking' : Q,
      exists dfPV',
        s06CalculatePVProduction no_transform linear_pvgis scenario 600 2000
          100 30 180 tracking' 14 false 2019
        = Ok (nameNuts2, nuts2PV, potDistPV, dfPV').
Proof.
  eexists _, _, _, _.
  match goal with
  | |- ?A /\ _ => assert (H : A) by (cbv; reflexivity)
  end.
  split; [exact H |].
  exact (proj1 (s06CalculatePVProduction_distribution
                  _ _ _ _ _ _ _ _ _ _ _ _ _ _ _ _ H)).
Defined.

(** X15. Step 06 cannot return without a PV record: when no row of the PV
    catalogue is selected, the distribution has no time index to format
    and the step raises. *)
Theorem s06CalculatePVProduction_empty_selection (transform : Q -> Q -> Q * Q)
    (get_pvgis_hourly : Q -> Q -> Z -> Q -> Q -> Q -> Z -> Q -> Res (list Q))
    (scadaPV : list Row)
    (areaPV minGhiPV landUsePV tilt azimuth tracking loss : Q)
    (convertCoord : bool) (year : Z) :
  fst (x04GetRegions scadaPV areaPV minGhiPV) = [] ->
  s06CalculatePVProduction transform get_pvgis_hourly scadaPV areaPV minGhiPV
    landUsePV tilt azimuth tracking loss convertCoord year
  = Raise AttributeError.
Proof.
  intros Hempty. unfold s06CalculatePVProduction.
  destruct (x04GetRegions scadaPV areaPV minGhiPV) as [sel name].
  cbn [fst] in Hempty. subst sel. reflexivity.
Qed.

Lemma s06CalculatePVProduction_empty_selection_witness :
  fst (x04GetRegions scenario 600 2500) = [] /\
  s06CalculatePVProduction no_transform linear_pvgis scenario 600 2500
    100 30 180 (60 # 100) 14 false 2019
  = Raise AttributeError.
Proof.
  assert (H : fst (x04GetRegions scenario 600 2500) = []) by reflexivity.
  split; [exact H |].
  exact (s06CalculatePVProduction_empty_selection
           no_transform linear_pvgis scenario 600 2500 100 30 180 (60 # 100) 14
           false 2019 H).
Defined.

(** ** The run *)





(** ** Keys, dictionaries and the OPEX of step 09 *)

Lemma string_length_app (s1 s2 : string) :
  String.length (s1 +:+ s2) = (String.length s1 + String.length s2)%nat.
Proof.
  induction s1 as [| c s1 IH]; [reflexivity |].
  change (S (String.length (s1 +:+ s2))
          = S (String.length s1 + String.length s2)%nat).
  f_equal. exact IH.
Qed.

(** A suffix can be taken off a key again. *)
Lemma suffix_inj (s k1 k2 : string) : k1 +:+ s = k2 +:+ s -> k1 = k2.
Proof.
  revert k2. induction k1 as [| c k1 IH]; intros [| c' k2] H.
  - reflexivity.
  - apply (f_equal String.length) in H.
    rewrite !string_length_app in H. cbn [String.length] in H. lia.
  - apply (f_equal String.length) in H.
    rewrite !string_length_app in H. cbn [String.length] in H. lia.
  - cbn in H. injection H as -> H. f_equal. apply IH. exact H.
Qed.

Lemma contains_app_r (sub k s : string) :
  contains sub s = true -> contains sub (k +:+ s) = true.
Proof.
  intros H. induction k as [| c k IH]; [exact H |].
  change (String.prefix sub (String c (k +:+ s)) || contains sub (k +:+ s) = true).
  rewrite IH. apply orb_true_r.
Qed.

Lemma dict_set_fresh (k : string) (v : Q) (d : Dict) :
  k ∉ map fst d -> dict_set k v d = d ++ [(k, v)].
Proof.
  induction d as [| [k' v'] d IH]; intros Hk; [reflexivity |].
  cbn in *. apply not_elem_of_cons in Hk as [Hne Hk].
  destruct (String.eqb k' k) eqn:E.
  - apply String.eqb_eq in E. congruence.
  - rewrite IH by exact Hk. reflexivity.
Qed.

Lemma dict_merge_disjoint (d2 : Dict) :
  NoDup (map fst d2) ->
  forall d1 : Dict,
    Forall (fun kv => fst kv ∉ map fst d1) d2 ->
    dict_merge d1 d2 = d1 ++ d2.
Proof.
  unfold dict_merge.
  induction d2 as [| [k v] d2 IH]; intros Hnd d1 Hdis; cbn.
  - rewrite app_nil_r. reflexivity.
  - cbn in Hnd. apply NoDup_cons in Hnd as [Hk Hnd].
    apply Forall_cons in Hdis as [Hk1 Hdis]. cbn in Hk1.
    rewrite dict_set_fresh by exact Hk1.
    rewrite IH; [rewrite <- app_assoc; reflexivity | exact Hnd |].
    apply Forall_forall. intros [k' v'] Hin. cbn.
    rewrite map_app. cbn. rewrite elem_of_app, list_elem_of_singleton.
    rewrite Forall_forall in Hdis. specialize (Hdis _ Hin). cbn in Hdis.
    intros [H | ->]; [contradiction |].
    apply Hk. apply list_elem_of_In, in_map_iff. exists (k, v').
    split; [reflexivity | apply list_elem_of_In; exact Hin].
Qed.

Lemma dict_get_set_eq (k : string) (v : Q) (d : Dict) :
  dict_get k (dict_set k v d) = Some v.
Proof.
  induction d as [| [k' v'] d IH]; cbn.
  - rewrite String.eqb_refl. reflexivity.
  - destruct (String.eqb k' k) eqn:E; cbn; rewrite E; [reflexivity | exact IH].
Qed.

Lemma dict_get_set_ne (k k' : string) (v : Q) (d : Dict) :
  k <> k' -> dict_get k (dict_set k' v d) = dict_get k d.
Proof.
  intros Hne. induction d as [| [k0 v0] d IH]; cbn.
  - destruct (String.eqb k' k) eqn:E; [| reflexivity].
    apply String.eqb_eq in E. congruence.
  - destruct (String.eqb k0 k') eqn:E; cbn.
    + apply String.eqb_eq in E. subst k0.
      destruct (String.eqb k' k) eqn:E'; [| reflexivity].
      apply String.eqb_eq in E'. congruence.
    + rewrite IH. reflexivity.
Qed.

(** The totals of [x08CalculateOpex] on thermal keys followed by PV
    keys. *)
Lemma x08CalculateOpex_app (d1 d2 : Dict) (opexTH opexPV : Q) :
  Forall (fun kv => contains "thermal" (fst kv) = true) d1 ->
  Forall (fun kv => contains "thermal" (fst kv) = false
                    /\ contains "pv" (fst kv) = true) d2 ->
  fst (x08CalculateOpex (d1 ++ d2) opexTH opexPV) == Qsum (map snd d1) * opexTH /\
  snd (x08CalculateOpex (d1 ++ d2) opexTH opexPV) == Qsum (map snd d2) * opexPV.
Proof.
  intros H1 H2. unfold x08CalculateOpex. rewrite x08_fold. cbn [fst snd].
  rewrite !filter_app.
  rewrite (filter_all _ d1 H1).
  rewrite (filter_nothing (fun kv : string * Q => contains "thermal" (fst kv) = true) d2)
    by (eapply Forall_impl; [exact H2 |]; cbn; intros kv [E _]; rewrite E; discriminate).
  rewrite (filter_nothing (fun kv : string * Q =>
                             negb (contains "thermal" (fst kv))
                             && contains "pv" (fst kv) = true) d1)
    by (eapply Forall_impl; [exact H1 |]; cbn; intros kv E; rewrite E; discriminate).
  rewrite (filter_all (fun kv : string * Q =>
                         negb (contains "thermal" (fst kv))
                         && contains "pv" (fst kv) = true) d2)
    by (eapply Forall_impl; [exact H2 |]; cbn; intros kv [E1 E2];
        rewrite E1, E2; reflexivity).
  rewrite app_nil_r. cbn [app]. rewrite !fold_left_Qplus. split; ring.
Qed.

(** Step 09 on the table of step 07, with thermal production. *)
Lemma s09_thermal (dfTH dfPV : list Q) (nameNuts2 : option string)
    (nuts2Dist : Frame) (potDistTH potDistPV : Dict) (opexTH opexPV : Q)
    (out : Output) :
  dfTH <> [] ->
  s09SaveResults (s07CalculateAggregatedProduction dfTH dfPV nameNuts2)
                 nuts2Dist dfTH potDistTH potDistPV opexTH opexPV
  = Ok out ->
  aggregated out = labelled dfTH dfPV /\
  combined out
  = dict_set "opex_pv"
      (snd (x08CalculateOpex (combinedCapacities potDistTH potDistPV) opexTH opexPV))
      (dict_set "opex_thermal"
         (fst (x08CalculateOpex (combinedCapacities potDistTH potDistPV) opexTH opexPV))
         (combinedCapacities potDistTH potDistPV)).
Proof.
  intros Hne. destruct dfTH as [| x dfTH]; [congruence |].
  unfold s09SaveResults, s07CalculateAggregatedProduction, combinedCapacities.
  cbn [is_empty negb reset_index columns index_name map fst setitem].
  cbn [mbind Res_bind].
  destruct (mapM _ _) as [tables | e]; [| discriminate].
  cbn [mbind Res_bind].
  destruct (x08CalculateOpex _ opexTH opexPV) as [t1 t2].
  cbn. intros [= <-]. split; reflexivity.
Qed.

Lemma combinedCapacities_app (potDistTH potDistPV : Dict) :
  NoDup (map fst potDistPV) ->
  Forall (fun kv => contains "thermal" (fst kv +:+ "_pv") = false) potDistPV ->
  combinedCapacities potDistTH potDistPV
  = map (fun kv => (fst kv +:+ "_thermal", snd kv)) potDistTH
    ++ map (fun kv => (fst kv +:+ "_pv", snd kv)) potDistPV.
Proof.
  intros Hnd Hpv. unfold combinedCapacities. apply dict_merge_disjoint.
  - rewrite map_map. cbn.
    clear Hpv. induction potDistPV as [| [k v] d IH]; cbn; [constructor |].
    cbn in Hnd. apply NoDup_cons in Hnd as [Hk Hnd].
    constructor; [| apply IH; exact Hnd].
    intros Hin. apply Hk.
    apply list_elem_of_In, in_map_iff in Hin as ([k' v'] & E & Hin). cbn in E.
    apply suffix_inj in E. subst k'.
    apply list_elem_of_In, in_map_iff. exists (k, v'). split; [reflexivity | exact Hin].
  - apply Forall_forall. intros [k v] Hin. cbn.
    apply list_elem_of_In, in_map_iff in Hin as ([k0 v0] & E & Hin0). cbn in E.
    injection E as <- <-.
    rewrite Forall_forall in Hpv.
    specialize (Hpv (k0, v0) (proj2 (list_elem_of_In _ _) Hin0)). cbn in Hpv.
    intros Hin.
    apply list_elem_of_In in Hin. rewrite map_map in Hin. cbn in Hin.
    apply in_map_iff in Hin as ([k1 v1] & E & _). cbn in E.
    rewrite <- E in Hpv.
    rewrite (contains_app_r "thermal" k1 "_thermal" eq_refl) in Hpv.
    discriminate Hpv.
Qed.

(** The totals of the combined capacities. *)
Lemma opex_of_combined (potDistTH potDistPV : Dict) (opexTH opexPV : Q) :
  NoDup (map fst potDistPV) ->
  Forall (fun kv => contains "thermal" (fst kv +:+ "_pv") = false) potDistPV ->
  fst (x08CalculateOpex (combinedCapacities potDistTH potDistPV) opexTH opexPV)
  == Qsum (map snd potDistTH) * opexTH /\
  snd (x08CalculateOpex (combinedCapacities potDistTH potDistPV) opexTH opexPV)
  == Qsum (map snd potDistPV) * opexPV.
Proof.
  intros Hnd Hpv.
  rewrite (combinedCapacities_app _ _ Hnd Hpv).
  assert (Hsums : forall (sfx : string) (d : Dict),
             map snd (map (fun kv : string * Q => (fst kv +:+ sfx, snd kv)) d)
             = map snd d).
  { intros sfx d. rewrite map_map. reflexivity. }
  rewrite <- (Hsums "_thermal"%string potDistTH), <- (Hsums "_pv"%string potDistPV).
  apply x08CalculateOpex_app.
  - apply Forall_forall. intros [k v] Hin.
    apply list_elem_of_In, in_map_iff in Hin as ([k0 v0] & [= <- <-] & _). cbn.
    apply contains_app_r. reflexivity.
  - apply Forall_forall. intros [k v] Hin.
    apply list_elem_of_In, in_map_iff in Hin as ([k0 v0] & [= <- <-] & Hin0). cbn.
    rewrite Forall_forall in Hpv.
    split; [exact (Hpv (k0, v0) (proj2 (list_elem_of_In _ _) Hin0)) |].
    apply contains_app_r. reflexivity.
Qed.

(** X19. The OPEX that step 09 writes.  With thermal production, distinct PV
    regions, and no PV key [k_pv] that contains ['thermal'], the result
    holds under ['opex_thermal'] the thermal unit cost times the sum of the
    thermal capacities, and under ['opex_pv'] the PV unit cost times the
    sum of the PV capacities; and its first table has the columns
    ['time(UTC)'], ['Pthermal'] and ['Ppv']. *)
Theorem s09SaveResults_opex (dfTH dfPV : list Q) (nameNuts2 : option string)
    (nuts2Dist : Frame) (potDistTH potDistPV : Dict) (opexTH opexPV : Q)
    (out : Output) :
  dfTH <> [] ->
  NoDup (map fst potDistPV) ->
  Forall (fun kv => contains "thermal" (fst kv +:+ "_pv") = false) potDistPV ->
  s09SaveResults (s07CalculateAggregatedProduction dfTH dfPV nameNuts2)
                 nuts2Dist dfTH potDistTH potDistPV opexTH opexPV
  = Ok out ->
  aggregated out = labelled dfTH dfPV /\
  exists totalTH totalPV,
    dict_get "opex_thermal" (combined out) = Some totalTH /\
    dict_get "opex_pv" (combined out) = Some totalPV /\
    totalTH == Qsum (map snd potDistTH) * opexTH /\
    totalPV == Qsum (map snd potDistPV) * opexPV.
Proof.
  intros Hne Hnd Hpv H.
  destruct (s09_thermal _ _ _ _ _ _ _ _ _ Hne H) as [Hagg Hcomb].
  split; [exact Hagg |]. rewrite Hcomb.
  eexists _, _.
  split; [rewrite dict_get_set_ne by discriminate; apply dict_get_set_eq |].
  split; [apply dict_get_set_eq |].
  exact (opex_of_combined _ _ _ _ Hnd Hpv).
Qed.

Lemma s09SaveResults_opex_witness :
  exists out,
    ([1; 1] <> @nil Q /\
     NoDup (map fst [("E1"%string, 3)]) /\
     Forall (fun kv : string * Q => contains "thermal" (fst kv +:+ "_pv") = false)
            [("E1"%string, 3)] /\
     s09SaveResults
       (s07CalculateAggregatedProduction [1; 1] [1; 2] (Some "E"%string))
       (mkFrame (Some "time(UTC)"%string)
                [("E1_Pthermal"%string, Values [1; 2]);
                 ("E1_Ppv"%string, Values [1; 2])])
       [1; 1] [("E1"%string, 2)] [("E1"%string, 3)] 10 5
     = Ok out) /\
    exists totalTH totalPV,
      dict_get "opex_thermal" (combined out) = Some totalTH /\
      dict_get "opex_pv" (combined out) = Some totalPV /\
      totalTH == Qsum (map snd [("E1"%string, 2)]) * 10 /\
      totalPV == Qsum (map snd [("E1"%string, 3)]) * 5.
Proof.
  eexists.
  assert (H1 : [1; 1] <> @nil Q) by discriminate.
  assert (H2 : NoDup (map fst [("E1"%string, 3)])).
  { cbn. constructor; [apply not_elem_of_nil | constructor]. }
  assert (H3 : Forall (fun kv : string * Q =>
                         contains "thermal" (fst kv +:+ "_pv") = false)
                      [("E1"%string, 3)]).
  { constructor; [reflexivity | constructor]. }
  match goal with
  | |- (_ /\ _ /\ _ /\ ?A) /\ _ => assert (H4 : A) by (cbv; reflexivity)
  end.
  split; [repeat split; assumption |].
  exact (proj2 (s09SaveResults_opex _ _ _ _ _ _ _ _ _ H1 H2 H3 H4)).
Defined.

(** ** The run that returns *)








(** ** The labels of step 08, read back by step 09 *)

Lemma contains_underscore_cons (c : ascii) (s : string) :
  contains "_" (String c s) = Ascii.eqb "_" c || contains "_" s.
Proof.
  cbn [contains String.prefix].
  destruct (ascii_dec "_" c) as [<- | Hne].
  - rewrite Ascii.eqb_refl. destruct s; reflexivity.
  - assert (E : Ascii.eqb "_" c = false) by (apply Ascii.eqb_neq; exact Hne).
    rewrite E. reflexivity.
Qed.

(** A label [r_t], split at the underscores, when [r] has none. *)
Lemma split_on_label (r t : string) :
  contains "_" r = false ->
  split_on "_" (r +:+ String "_" t) = r :: split_on "_" t.
Proof.
  induction r as [| c r IH]; intros Hr; [reflexivity |].
  rewrite contains_underscore_cons in Hr.
  apply orb_false_iff in Hr as [Hc Hr].
  change (String c r +:+ String "_" t) with (String c (r +:+ String "_" t)).
  cbn [split_on]. rewrite Ascii.eqb_sym, Hc, (IH Hr). reflexivity.
Qed.

(** The first piece of a split has no underscore. *)
Lemma split_on_hd (s : string) :
  contains "_" (hd EmptyString (split_on "_" s)) = false.
Proof.
  induction s as [| c s IH]; [reflexivity |].
  cbn [split_on]. destruct (Ascii.eqb c "_") eqn:Hc; [reflexivity |].
  destruct (split_on "_" s) as [| p ps]; cbn [hd] in *.
  - rewrite contains_underscore_cons, Ascii.eqb_sym, Hc. reflexivity.
  - rewrite contains_underscore_cons, Ascii.eqb_sym, Hc, IH. reflexivity.
Qed.

(** X21. The labels that step 08 gives its columns, [region_Pthermal] and
    [region_Ppv], are read back by the [rsplit('_')] of step 09 as the
    region and the technology exactly when the region has no underscore:
    then the pieces are the region and the suffix, and otherwise the first
    piece is not the region. *)
Theorem s08CalculateDistributedProduction_labels (dfTH : list Q)
    (nuts2TH nuts2PV : Frame) :
  dfTH <> [] ->
  map fst (columns (s08CalculateDistributedProduction dfTH nuts2TH nuts2PV))
  = map (fun c => fst c +:+ "_Pthermal") (columns nuts2TH)
    ++ map (fun c => fst c +:+ "_Ppv") (columns nuts2PV) /\
  (forall (r sfx : string),
      sfx = "Pthermal"%string \/ sfx = "Ppv"%string ->
      (contains "_" r = false ->
       split_on "_" (r +:+ String "_" sfx) = [r; sfx]) /\
      (contains "_" r = true ->
       hd EmptyString (split_on "_" (r +:+ String "_" sfx)) <> r)).
Proof.
  intros Hne. split.
  - destruct dfTH as [| x dfTH]; [congruence |].
    unfold s08CalculateDistributedProduction, add_suffix.
    cbn [is_empty negb columns]. rewrite map_app, !map_map. reflexivity.
  - intros r sfx Hsfx. split.
    + intros Hr. rewrite (split_on_label r sfx Hr).
      destruct Hsfx as [-> | ->]; reflexivity.
    + intros Hr E.
      pose proof (split_on_hd (r +:+ String "_" sfx)) as Hhd.
      rewrite E in Hhd. congruence.
Qed.

Lemma s08CalculateDistributedProduction_labels_witness :
  [1; 2] <> @nil Q /\
  map fst (columns (s08CalculateDistributedProduction [1; 2]
                      (mkFrame (Some "time(UTC)"%string)
                               [("E1"%string, Values [1; 2])])
                      (mkFrame (Some "time"%string)
                               [("E1"%string, Values [3; 4]);
                                ("E2"%string, Values [5; 6])])))
  = ["E1_Pthermal"; "E1_Ppv"; "E2_Ppv"]%string.
Proof.
  assert (H : [1; 2] <> @nil Q) by discriminate.
  split; [exact H |].
  exact (proj1 (s08CalculateDistributedProduction_labels [1; 2]
                  (mkFrame (Some "time(UTC)"%string)
                           [("E1"%string, Values [1; 2])])
                  (mkFrame (Some "time"%string)
                           [("E1"%string, Values [3; 4]);
                            ("E2"%string, Values [5; 6])]) H)).
Defined.

(** ** The blend of step 06 *)








(** * Properties in Python arithmetic *)

Section PythonNumbers.
Import PrimFloat Py.
#[local] Set Warnings "-inexact-float".

Lemma to_float_raises (x : PyNum) (e : PyExc) :
  to_float x = Raise e -> e = OverflowError.
Proof.
  destruct x as [z | f]; cbn [to_float]; [| discriminate].
  unfold float_of_int. destruct (is_infinity _); congruence.
Qed.

(** The conversions of a float operation on [x] and [y], then [k]. *)
Lemma floats_raise {A : Type} (x y : PyNum) (k : float -> float -> Res A)
    (e : PyExc) :
  (a ← to_float x; b ← to_float y; k a b) = Raise e ->
  e = OverflowError \/
  exists a b, to_float x = Ok a /\ to_float y = Ok b /\ k a b = Raise e.
Proof.
  destruct (to_float x) as [a | e1] eqn:Hx; cbn [mbind Res_bind].
  - destruct (to_float y) as [b | e2] eqn:Hy; cbn [mbind Res_bind].
    + intros H. right. exists a, b. auto.
    + intros [= <-]. left. exact (to_float_raises _ _ Hy).
  - intros [= <-]. left. exact (to_float_raises _ _ Hx).
Qed.

Lemma arith_raises (on_int : Z -> Z -> Z) (on_float : float -> float -> float)
    (x y : PyNum) (e : PyExc) :
  arith on_int on_float x y = Raise e -> e = OverflowError.
Proof.
  unfold arith. intros H.
  assert (Hf : (a ← to_float x; b ← to_float y;
                mret (PyFloat (on_float a b))) = Raise e -> e = OverflowError).
  { intros Hr. apply floats_raise in Hr as [-> | (a & b & _ & _ & Hr)];
      [reflexivity | discriminate Hr]. }
  destruct x as [a | a], y as [b | b]; try (exact (Hf H)). discriminate H.
Qed.


(** ** x03GetAvailableArea *)

(** The steps of [x03GetAvailableArea] that follow the choice of a field. *)
Lemma x03GetAvailableArea_branches (a p c : option PyNum) (cost landUse : PyNum) :
  Py.x03GetAvailableArea [a; p; c] cost landUse
  = match a, p, c with
    | Some area, _, _ =>
        n ← pymul area landUse;
        power ← pytruediv n e6;
        n ← pymul power cost;
        capex ← pymul n e6;
        mret (area, power, capex)
    | None, Some power, _ =>
        n ← pymul power e6;
        area ← pytruediv n landUse;
        n ← pymul power cost;
        capex ← pymul n e6;
        mret (area, power, capex)
    | None, None, Some capex =>
        d ← pymul cost e6;
        power ← pytruediv capex d;
        n ← pymul power e6;
        area ← pytruediv n landUse;
        mret (area, power, capex)
    | None, None, None => Raise TypeError
    end.
Proof. destruct a, p, c; reflexivity. Qed.

(** C2, as stated, fails.  With the capex as the chosen field and a system
    cost of 0 (the value the validator puts in place of a cost out of
    range) the function raises; and with the power as the chosen field the
    power it returns is not the area times the land use over 1e6: for the
    power 1 and the land use 30 that product is 1.0000000000000002. *)
Lemma x03GetAvailableArea_not_consistent :
  Py.x03GetAvailableArea [None; None; Some (PyInt 7)] (PyInt 0) (PyInt 50)
  = Raise ZeroDivisionError /\
  Py.x03GetAvailableArea [None; Some (PyInt 1); None] (PyInt 5) (PyInt 30)
  = Ok (PyFloat 33333.333333333336, PyInt 1, PyFloat 5000000) /\
  (pymul (PyFloat 33333.333333333336) (PyInt 30) ≫= (fun n => pytruediv n e6))
  = Ok (PyFloat 1.0000000000000002) /\
  pylt (PyInt 1) (PyFloat 1.0000000000000002) = true.
Proof. repeat split; vm_compute; reflexivity. Qed.

(** C2, amended. [x03GetAvailableArea] takes the first entry of the triple
    that is not null, in the order area, power, capex, and computes the
    other two from it, in Python arithmetic: from the area, power = area *
    landUse / 1e6 and capex = power * cost * 1e6; from the power, area =
    power * 1e6 / landUse and capex = power * cost * 1e6; from the capex,
    power = capex / (cost * 1e6) and area = power * 1e6 / landUse.  It
    returns these unless one of the operations raises.  On floats the only
    operation that raises is a division by zero: by the land use when the
    area is null, by cost * 1e6 when the capex is the chosen field. *)
Theorem x03GetAvailableArea_first_non_null :
  (forall (a p c : option PyNum) (cost landUse : PyNum),
      Py.x03GetAvailableArea [a; p; c] cost landUse
      = match a, p, c with
        | Some area, _, _ =>
            power ← pymul area landUse ≫= (fun n => pytruediv n e6);
            capex ← pymul power cost ≫= (fun n => pymul n e6);
            mret (area, power, capex)
        | None, Some power, _ =>
            area ← pymul power e6 ≫= (fun n => pytruediv n landUse);
            capex ← pymul power cost ≫= (fun n => pymul n e6);
            mret (area, power, capex)
        | None, None, Some capex =>
            power ← pymul cost e6 ≫= pytruediv capex;
            area ← pymul power e6 ≫= (fun n => pytruediv n landUse);
            mret (area, power, capex)
        | None, None, None => Raise TypeError
        end) /\
  (forall (a p c : option float) (cost landUse : float),
      Py.x03GetAvailableArea [PyFloat <$> a; PyFloat <$> p; PyFloat <$> c]
                             (PyFloat cost) (PyFloat landUse)
      = match a, p, c with
        | Some area, _, _ =>
            let power := (area * landUse / 1e6)%float in
            let capex := (power * cost * 1e6)%float in
            Ok (PyFloat area, PyFloat power, PyFloat capex)
        | None, Some power, _ =>
            if (landUse =? 0)%float then Raise ZeroDivisionError
            else
              let area := (power * 1e6 / landUse)%float in
              let capex := (power * cost * 1e6)%float in
              Ok (PyFloat area, PyFloat power, PyFloat capex)
        | None, None, Some capex =>
            if (cost * 1e6 =? 0)%float then Raise ZeroDivisionError
            else if (landUse =? 0)%float then Raise ZeroDivisionError
            else
              let power := (capex / (cost * 1e6))%float in
              let area := (power * 1e6 / landUse)%float in
              Ok (PyFloat area, PyFloat power, PyFloat capex)
        | None, None, None => Raise TypeError
        end).
Proof.
  split.
  - intros a p c cost landUse. rewrite x03GetAvailableArea_branches.
    destruct a as [area |]; [| destruct p as [power |]; [| destruct c as [capex |]]];
      try reflexivity.
    + destruct (pymul area landUse) as [n |]; [| reflexivity].
      cbn [mbind Res_bind]. destruct (pytruediv n e6) as [power |]; [| reflexivity].
      cbn [mbind Res_bind]. destruct (pymul power cost) as [m |]; reflexivity.
    + destruct (pymul power e6) as [n |]; [| reflexivity].
      cbn [mbind Res_bind]. destruct (pytruediv n landUse) as [area |]; [| reflexivity].
      cbn [mbind Res_bind]. destruct (pymul power cost) as [m |]; reflexivity.
    + destruct (pymul cost e6) as [d |]; [| reflexivity].
      cbn [mbind Res_bind]. destruct (pytruediv capex d) as [power |]; [| reflexivity].
      cbn [mbind Res_bind]. destruct (pymul power e6) as [n |]; reflexivity.
  - intros a p c cost landUse. rewrite x03GetAvailableArea_branches.
    destruct a as [area |]; [| destruct p as [power |]; [| destruct c as [capex |]]];
      cbn [fmap option_fmap option_map]; try reflexivity.
    + cbn [pymul arith to_float mbind Res_bind mret Res_ret e6].
      destruct (landUse =? 0)%float eqn:Hl.
      * unfold pytruediv. cbn [to_float mbind Res_bind]. rewrite Hl. reflexivity.
      * unfold pytruediv. cbn [to_float mbind Res_bind]. rewrite Hl. reflexivity.
    + cbn [pymul arith to_float mbind Res_bind mret Res_ret e6].
      unfold pytruediv. cbn [to_float mbind Res_bind].
      destruct (cost * 1e6 =? 0)%float; [reflexivity |].
      cbn [mbind Res_bind mret Res_ret arith to_float].
      destruct (landUse =? 0)%float; reflexivity.
Qed.

(** C7. On the all-null triple no entry is found, the index is -1, the
    area is taken from the first entry, which is null, and its product with
    the land use raises [TypeError], whatever the cost and the land use.
    The validator has the default that the function lacks: it replaces an
    all-null triple by the area 0. *)
Theorem x03GetAvailableArea_all_null_raises (cost landUse : PyNum) :
  Py.next_not_none 0 [None; None; None] = (-1)%Z /\
  Py.x03GetAvailableArea [None; None; None] cost landUse = Raise TypeError /\
  validateSizing None None None = (Some 0, None, None).
Proof. repeat split. Qed.









(** ** x04GetRegions *)

Lemma pyadd_raises (x y : PyNum) (e : PyExc) :
  pyadd x y = Raise e -> e = OverflowError.
Proof. apply arith_raises. Qed.

Lemma pysub_raises (x y : PyNum) (e : PyExc) :
  pysub x y = Raise e -> e = OverflowError.
Proof. apply arith_raises. Qed.

(** The name is captured once: a loop that starts at the first row with no
    name runs as the loop that starts with the name of that row. *)
Lemma py_x04_loop_capture (row : Py.Row) (rest : list Py.Row)
    (area minGHI cs : PyNum) (rows : list Py.Row) :
  Py.x04_loop (row :: rest) area minGHI cs None rows
  = Py.x04_loop (row :: rest) area minGHI cs
                (Some (drop_last (Py.Region row))) rows.
Proof. reflexivity. Qed.

(** The loop raises nothing but [OverflowError]. *)
Lemma py_x04_loop_raises (area minGHI : PyNum) (scada : list Py.Row) :
  forall (cs : PyNum) (name : option string) (rows : list Py.Row) (e : PyExc),
    Py.x04_loop scada area minGHI cs name rows = Raise e -> e = OverflowError.
Proof.
  induction scada as [| row rest IH]; intros cs name rows e; [discriminate |].
  cbn [Py.x04_loop].
  destruct (Py.qualifies (Py.captureName name row) minGHI row); [| apply IH].
  destruct (pyadd cs (Py.Area_m2 row)) as [s | e1] eqn:Hs; cbn [mbind Res_bind mret Res_ret].
  - destruct (pygt s area); [| apply IH].
    destruct (pysub area cs) as [v | e2] eqn:Hv; cbn [mbind Res_bind mret Res_ret].
    + destruct (pyadd cs (Py.Area_m2 (Py.set_Area_m2 v row))) as [s' | e3] eqn:Hs'; cbn [mbind Res_bind mret Res_ret];
        [discriminate |].
      intros [= <-]. exact (pyadd_raises _ _ _ Hs').
    + intros [= <-]. exact (pysub_raises _ _ _ Hv).
  - intros [= <-]. exact (pyadd_raises _ _ _ Hs).
Qed.

(** The loop, from any state with a name, when it returns: it has selected
    the qualifying rows among the first [n] rows at their full area, the
    running sum never testing above the target, and then either reached
    the end of the catalogue or truncated row [n] and stopped. *)
Lemma py_x04_loop_spec (nm : string) (area minGHI : PyNum) (scada : list Py.Row) :
  forall (cs : PyNum) (rows out : list Py.Row) (name : option string),
    Py.x04_loop scada area minGHI cs (Some nm) rows = Ok (out, name) ->
    name = Some nm /\
    exists (n : nat) (cs' : PyNum),
      let pre := filter (fun r => Py.qualifies nm minGHI r = true) (take n scada) in
      Py.areaFrom cs pre = Ok cs' /\
      (pygt cs area = false ->
       forall (k : nat) (c : PyNum),
         Py.areaFrom cs (take k pre) = Ok c -> pygt c area = false) /\
      ((n = length scada /\ out = rows ++ pre) \/
       (exists r s rem,
          scada !! n = Some r /\ Py.qualifies nm minGHI r = true /\
          pyadd cs' (Py.Area_m2 r) = Ok s /\ pygt s area = true /\
          pysub area cs' = Ok rem /\
          out = rows ++ pre ++ [Py.set_Area_m2 rem r])).
Proof.
  induction scada as [| row rest IH]; intros cs rows out name.
  - cbn. intros [= <- <-]. split; [reflexivity |].
    exists 0%nat, cs. cbn. split; [reflexivity |]. split.
    + intros Hcs k c. destruct k; cbn; intros [= <-]; exact Hcs.
    + left. rewrite app_nil_r. auto.
  - cbn [Py.x04_loop Py.captureName].
    destruct (Py.qualifies nm minGHI row) eqn:Hq.
    + destruct (pyadd cs (Py.Area_m2 row)) as [s | e1] eqn:Hs;
        cbn [mbind Res_bind mret Res_ret]; [| discriminate].
      destruct (pygt s area) eqn:Hover.
      * destruct (pysub area cs) as [v | e2] eqn:Hv; cbn [mbind Res_bind mret Res_ret];
          [| discriminate].
        destruct (pyadd cs (Py.Area_m2 (Py.set_Area_m2 v row))) as [s' | e3]; cbn [mbind Res_bind mret Res_ret]; [| discriminate].
        intros [= <- <-]. split; [reflexivity |].
        exists 0%nat, cs. cbn. split; [reflexivity |]. split.
        -- intros Hcs k c. destruct k; cbn; intros [= <-]; exact Hcs.
        -- right. exists row, s, v. repeat split; assumption.
      * intros H. apply IH in H as (-> & n & cs' & Hsum & Hin & Hn).
        split; [reflexivity |]. exists (S n), cs'. cbn [take].
        rewrite filter_cons_True by exact Hq. cbn zeta in *.
        split; [cbn [Py.areaFrom]; rewrite Hs; exact Hsum |]. split.
        -- intros Hcs k c. destruct k as [| k]; cbn [take Py.areaFrom].
           ++ intros [= <-]. exact Hcs.
           ++ rewrite Hs. cbn [mbind Res_bind mret Res_ret]. apply Hin. exact Hover.
        -- destruct Hn as [[-> ->] | (r & s' & rem & Hr & Hqr & Hs' & Ho & Hrem & ->)].
           ++ left. rewrite <- app_assoc. auto.
           ++ right. exists r, s', rem. rewrite <- !app_assoc. cbn [app].
              repeat split; assumption.
    + intros H. apply IH in H as (-> & n & cs' & Hsum & Hin & Hn).
      split; [reflexivity |]. exists (S n), cs'. cbn [take].
      rewrite filter_cons_False by (rewrite Hq; discriminate). cbn zeta in *.
      split; [exact Hsum |]. split; [exact Hin |].
      destruct Hn as [[-> ->] | (r & s' & rem & Hr & Hqr & Hs' & Ho & Hrem & ->)].
      * left. auto.
      * right. exists r, s', rem. repeat split; assumption.
Qed.

(** On areas and a target that are floats the loop returns. *)
Lemma py_x04_loop_floats (nm : string) (fa : float) (minGHI : PyNum)
    (scada : list Py.Row) :
  Py.FloatAreas scada ->
  forall (cs : PyNum) (rows : list Py.Row),
    cs = PyInt 0 \/ (exists f, cs = PyFloat f) ->
    exists out,
      Py.x04_loop scada (PyFloat fa) minGHI cs (Some nm) rows = Ok (out, Some nm).
Proof.
  induction 1 as [| row rest [f Hf] _ IH]; intros cs rows Hcs.
  - exists rows. reflexivity.
  - cbn [Py.x04_loop Py.captureName].
    destruct (Py.qualifies nm minGHI row); [| apply IH; exact Hcs].
    rewrite Hf.
    assert (Hadd : forall g, exists s, pyadd cs (PyFloat g) = Ok (PyFloat s)).
    { intros g. destruct Hcs as [-> | [c ->]]; eexists; reflexivity. }
    destruct (Hadd f) as [s Hs]. rewrite Hs. cbn [mbind Res_bind mret Res_ret].
    destruct (pygt (PyFloat s) (PyFloat fa)).
    + assert (Hsub : exists v, pysub (PyFloat fa) cs = Ok (PyFloat v)).
      { destruct Hcs as [-> | [c ->]]; eexists; reflexivity. }
      destruct Hsub as [v ->]. cbn [mbind Res_bind Py.set_Area_m2 Py.Area_m2].
      destruct (Hadd v) as [s' ->]. cbn [mbind Res_bind mret Res_ret]. eexists. reflexivity.
    + apply IH. right. exists s. reflexivity.
Qed.

Lemma py_qualifies_positive (nm : string) (minGHI : PyNum) (r : Py.Row) (z : Z) :
  Py.qualifies nm minGHI r = true -> Py.Area_m2 r = PyInt z -> (0 < z)%Z.
Proof.
  unfold Py.qualifies. rewrite !andb_true_iff. intros [[H _] _] E.
  rewrite E in H. cbn in H. apply Z.ltb_lt in H. exact H.
Qed.

Lemma wholeTotal_cons (r : Py.Row) (rows : list Py.Row) :
  Py.wholeTotal (r :: rows) = (Py.wholeArea r + Py.wholeTotal rows)%Z.
Proof. reflexivity. Qed.

Lemma wholeTotal_app (l1 l2 : list Py.Row) :
  Py.wholeTotal (l1 ++ l2) = (Py.wholeTotal l1 + Py.wholeTotal l2)%Z.
Proof.
  induction l1 as [| r l1 IH]; [reflexivity |].
  cbn [app]. rewrite !wholeTotal_cons, IH. lia.
Qed.

(** On whole numbers the running sum is exact. *)
Lemma areaFrom_int (rows : list Py.Row) :
  Py.IntAreas rows ->
  forall c : Z, Py.areaFrom (PyInt c) rows = Ok (PyInt (c + Py.wholeTotal rows)).
Proof.
  induction 1 as [| r rows [z Hz] _ IH]; intros c.
  - cbn. rewrite Z.add_0_r. reflexivity.
  - cbn [Py.areaFrom]. rewrite Hz. cbn [pyadd arith mbind Res_bind].
    rewrite IH, wholeTotal_cons. unfold Py.wholeArea. rewrite Hz.
    f_equal. f_equal. lia.
Qed.

Lemma IntAreas_pre (P : Py.Row -> Prop) `{forall r, Decision (P r)}
    (n : nat) (scada : list Py.Row) :
  Py.IntAreas scada -> Py.IntAreas (filter P (take n scada)).
Proof.
  unfold Py.IntAreas. rewrite !Forall_forall. intros Hall r Hr.
  apply list_elem_of_filter in Hr as [_ Hr]. apply Hall.
  eapply subseteq_take. exact Hr.
Qed.

(** The loop on whole numbers, from any state with a name: it returns, and
    it has selected the qualifying rows among the first [n] rows at their
    full area and then either reached the end of the catalogue or
    truncated row [n] to the remaining budget. *)
Lemma py_x04_loop_int (nm : string) (t : Z) (minGHI : PyNum) (scada : list Py.Row) :
  Py.IntAreas scada ->
  forall (cs : Z) (rows : list Py.Row),
  exists n : nat,
    let pre := filter (fun r => Py.qualifies nm minGHI r = true) (take n scada) in
    ((cs <= t)%Z -> (cs + Py.wholeTotal pre <= t)%Z) /\
    ((n = length scada /\
      Py.x04_loop scada (PyInt t) minGHI (PyInt cs) (Some nm) rows
      = Ok (rows ++ pre, Some nm))
     \/
     (exists r, scada !! n = Some r /\
        Py.qualifies nm minGHI r = true /\
        (t < cs + Py.wholeTotal pre + Py.wholeArea r)%Z /\
        Py.x04_loop scada (PyInt t) minGHI (PyInt cs) (Some nm) rows
        = Ok (rows ++ pre
                   ++ [Py.set_Area_m2 (PyInt (t - (cs + Py.wholeTotal pre))) r],
              Some nm))).
Proof.
  induction 1 as [| row rest [z Hz] _ IH]; intros cs rows.
  - exists 0%nat. cbn. split; [lia |]. left. rewrite app_nil_r. auto.
  - assert (Hw : Py.wholeArea row = z) by (unfold Py.wholeArea; rewrite Hz; reflexivity).
    cbn [Py.x04_loop Py.captureName].
    destruct (Py.qualifies nm minGHI row) eqn:Hq.
    + rewrite Hz. cbn [pyadd arith mbind Res_bind mret Res_ret pygt pylt].
      destruct (t <? cs + z)%Z eqn:Hover.
      * apply Z.ltb_lt in Hover.
        exists 0%nat. cbn. split; [lia |]. right. exists row.
        rewrite Hw.
        split; [reflexivity |]. split; [exact Hq |]. split; [lia |].
        rewrite Z.add_0_r. reflexivity.
      * apply Z.ltb_ge in Hover.
        destruct (IH (cs + z)%Z (rows ++ [row])) as (n & Hle & Hn).
        exists (S n). cbn [take]. rewrite filter_cons_True by exact Hq.
        cbn zeta in *. rewrite wholeTotal_cons, Hw. split; [lia |].
        destruct Hn as [[-> Hn] | (r & Hr & Hqr & Ho & Hn)];
          rewrite <- !app_assoc in Hn; cbn [app] in Hn.
        -- left. split; [reflexivity | exact Hn].
        -- right. exists r. cbn [app].
           split; [exact Hr |]. split; [exact Hqr |]. split; [lia |].
           rewrite Hn. rewrite <- !Z.add_assoc. reflexivity.
    + destruct (IH cs rows) as (n & Hle & Hn).
      exists (S n). cbn [take].
      rewrite filter_cons_False by (rewrite Hq; discriminate).
      cbn zeta in *. split; [exact Hle |].
      destruct Hn as [[-> Hn] | (r & Hr & Hqr & Ho & Hn)].
      * left. split; [reflexivity | exact Hn].
      * right. exists r. auto.
Qed.

(** The selection from a catalogue of whole numbers, without the
    accumulators: the loop lemma at the initial state. *)
Lemma py_x04GetRegions_int (scada : list Py.Row) (t : Z) (minGHI : PyNum) :
  Py.IntAreas scada ->
  exists n : nat,
    let pre := filter (Py.Qualifies scada minGHI) (take n scada) in
    ((0 <= t)%Z -> (Py.wholeTotal pre <= t)%Z) /\
    ((n = length scada /\
      Py.x04GetRegions scada (PyInt t) minGHI = Ok (pre, Py.regionName scada))
     \/
     (exists r, scada !! n = Some r /\
        Py.Qualifies scada minGHI r /\
        (t < Py.wholeTotal pre + Py.wholeArea r)%Z /\
        Py.x04GetRegions scada (PyInt t) minGHI
        = Ok (pre ++ [Py.set_Area_m2 (PyInt (t - Py.wholeTotal pre)) r],
              Py.regionName scada))).
Proof.
  intros Hint. destruct scada as [| row rest].
  - exists 0%nat. cbn. split; [lia |]. left. auto.
  - unfold Py.x04GetRegions. rewrite py_x04_loop_capture.
    destruct (py_x04_loop_int (drop_last (Py.Region row)) t minGHI (row :: rest)
                              Hint 0 [])
      as (n & Hle & Hn).
    exists n. exact (conj Hle Hn).
Qed.

Lemma IntAreas_scenario : Py.IntAreas Py.scenario.
Proof. repeat constructor; eexists; reflexivity. Qed.

(** C3, as stated, fails.  With areas 0.3 and 1.0 and the target 0.9 the
    second record is truncated to 0.9 - 0.3, which is 0.6000000000000001 in
    binary64, and the cumulative area of the two records is
    0.9000000000000001, above the target, whether it is added in binary64
    or exactly.  And with a negative target and no qualifying row the
    cumulative area 0 of the empty selection is above the target. *)
Lemma x04GetRegions_over_target :
  (Py.x04GetRegions Py.tenths (PyFloat 0.9) (PyInt 2000)
   = Ok (Py.tenths_selected, Some "E"%string) /\
   Py.totalArea Py.tenths_selected = Ok (PyFloat 0.9000000000000001) /\
   pygt (PyFloat 0.9000000000000001) (PyFloat 0.9) = true /\
   match Py.exactTotal Py.tenths_selected, Py.value (PyFloat 0.9) with
   | Some total, Py.Finite target => Qlt_bool target total = true
   | _, _ => False
   end) /\
  (Py.x04GetRegions Py.scenario (PyInt (-5)) (PyInt 2500)
   = Ok ([], Some "E"%string) /\
   Py.totalArea [] = Ok (PyInt 0) /\
   pygt (PyInt 0) (PyInt (-5)) = true).
Proof. repeat split; vm_compute; reflexivity. Qed.

(** C3, amended. For a target area that is not negative, when
    [x04GetRegions] returns, the selection is the qualifying rows among the
    first [n] rows of the catalogue, each at its full area, and the
    cumulative area of these, as the code adds it up, does not exceed the
    target at any of them; then either the catalogue is exhausted, or row
    [n] would overshoot, is appended with its area set to the remaining
    budget (the target less the running sum) as the last record, and ends
    the scan.  It raises nothing but [OverflowError], and returns when the
    areas and the target are floats, or whole numbers.  On whole numbers
    the arithmetic is exact: the cumulative area of all the records
    returned does not exceed the target, and is the target when a record
    was truncated.  On the catalogue of the scenario, with target 600 and
    floor 2000, the selection is the first row at 500 and the second
    truncated to 100, 600 in all. *)
Theorem x04GetRegions_within_target (scada : list Py.Row) (area minGHI : PyNum) :
  pylt area (PyInt 0) = false ->
  (forall (rows : list Py.Row) (name : option string),
      Py.x04GetRegions scada area minGHI = Ok (rows, name) ->
      name = Py.regionName scada /\
      exists (n : nat) (currentSum : PyNum),
        let pre := filter (Py.Qualifies scada minGHI) (take n scada) in
        Py.totalArea pre = Ok currentSum /\
        (forall (k : nat) (c : PyNum),
            Py.totalArea (take k pre) = Ok c -> pygt c area = false) /\
        ((n = length scada /\ rows = pre)
         \/
         (exists r s rem,
            scada !! n = Some r /\
            Py.Qualifies scada minGHI r /\
            pyadd currentSum (Py.Area_m2 r) = Ok s /\
            pygt s area = true /\
            pysub area currentSum = Ok rem /\
            rows = pre ++ [Py.set_Area_m2 rem r]))) /\
  (forall e : PyExc,
      Py.x04GetRegions scada area minGHI = Raise e -> e = OverflowError) /\
  ((exists f, area = PyFloat f) -> Py.FloatAreas scada ->
   exists rows,
     Py.x04GetRegions scada area minGHI = Ok (rows, Py.regionName scada)) /\
  (forall t : Z,
      area = PyInt t -> Py.IntAreas scada ->
      exists (rows : list Py.Row) (total : Z),
        Py.x04GetRegions scada area minGHI = Ok (rows, Py.regionName scada) /\
        Py.totalArea rows = Ok (PyInt total) /\
        (total <= t)%Z /\
        (rows = filter (Py.Qualifies scada minGHI) scada \/ total = t)) /\
  (Py.x04GetRegions Py.scenario (PyInt 600) (PyInt 2000)
   = Ok (Py.scenario_selected, Some "E"%string) /\
   Py.totalArea Py.scenario_selected = Ok (PyInt 600)).
Proof.
  intros Harea. split; [| split; [| split; [| split]]].
  - intros rows name. destruct scada as [| row rest].
    + cbn. intros [= <- <-]. split; [reflexivity |].
      exists 0%nat, (PyInt 0). cbn. split; [reflexivity |]. split.
      * intros k c. destruct k; cbn; intros [= <-]; exact Harea.
      * left. auto.
    + unfold Py.x04GetRegions. rewrite py_x04_loop_capture. intros H.
      apply py_x04_loop_spec in H as (-> & n & cs' & Hsum & Hin & Hn).
      split; [reflexivity |]. exists n, cs'.
      split; [exact Hsum |]. split; [exact (Hin Harea) |].
      destruct Hn as [Hn | (r & s & rem & Hn)]; [left; exact Hn |].
      right. exists r, s, rem. exact Hn.
  - intros e. apply py_x04_loop_raises.
  - intros [f ->] Hfl. destruct scada as [| row rest].
    + exists []. reflexivity.
    + unfold Py.x04GetRegions. rewrite py_x04_loop_capture.
      apply (py_x04_loop_floats _ _ _ _ Hfl). left. reflexivity.
  - intros t -> Hint.
    assert (Ht : (0 <= t)%Z) by (cbn in Harea; apply Z.ltb_ge in Harea; exact Harea).
    destruct (py_x04GetRegions_int scada t minGHI Hint) as (n & Hle & Hn).
    cbn zeta in *. specialize (Hle Ht).
    pose proof (IntAreas_pre (Py.Qualifies scada minGHI) n scada Hint) as Hpre.
    destruct Hn as [[-> Heq] | (r & Hr & Hq & Hover & Heq)].
    + rewrite firstn_all in *.
      exists (filter (Py.Qualifies scada minGHI) scada),
             (Py.wholeTotal (filter (Py.Qualifies scada minGHI) scada)).
      split; [exact Heq |]. split; [| split; [exact Hle | left; reflexivity]].
      unfold Py.totalArea. rewrite (areaFrom_int _ Hpre). reflexivity.
    + exists (filter (Py.Qualifies scada minGHI) (take n scada)
              ++ [Py.set_Area_m2
                    (PyInt (t - Py.wholeTotal (filter (Py.Qualifies scada minGHI)
                                                      (take n scada)))) r]), t.
      split; [exact Heq |]. split; [| split; [lia | right; reflexivity]].
      unfold Py.totalArea. rewrite areaFrom_int.
      * rewrite wholeTotal_app. cbn. f_equal. f_equal. lia.
      * apply Forall_app. split; [exact Hpre |].
        apply Forall_singleton. eexists. reflexivity.
  - split; reflexivity.
Qed.

Lemma x04GetRegions_within_target_witness :
  pylt (PyInt 600) (PyInt 0) = false /\
  exists (rows : list Py.Row) (total : Z),
    Py.x04GetRegions Py.scenario (PyInt 600) (PyInt 2000)
    = Ok (rows, Py.regionName Py.scenario) /\
    Py.totalArea rows = Ok (PyInt total) /\
    (total <= 600)%Z /\
    (rows = filter (Py.Qualifies Py.scenario (PyInt 2000)) Py.scenario
     \/ total = 600%Z).
Proof.
  assert (H : pylt (PyInt 600) (PyInt 0) = false) by reflexivity.
  split; [exact H |].
  exact (proj1 (proj2 (proj2 (proj2
           (x04GetRegions_within_target Py.scenario (PyInt 600) (PyInt 2000) H))))
           600%Z eq_refl IntAreas_scenario).
Defined.

(** Qualifying rows of whole numbers hold a positive area in all. *)
Lemma wholeTotal_nonneg (scada : list Py.Row) (minGHI : PyNum) (l : list Py.Row) :
  Py.IntAreas l ->
  (0 <= Py.wholeTotal (filter (Py.Qualifies scada minGHI) l))%Z.
Proof.
  induction 1 as [| r l [z Hz] _ IH]; [cbn; lia |].
  destruct (decide (Py.Qualifies scada minGHI r)) as [Hq | Hq].
  - rewrite filter_cons_True by exact Hq. rewrite wholeTotal_cons.
    pose proof (py_qualifies_positive _ _ _ _ Hq Hz).
    unfold Py.wholeArea. rewrite Hz. lia.
  - rewrite filter_cons_False by exact Hq. exact IH.
Qed.

(** A row that overshoots after the qualifying rows before it is part of
    the total of the qualifying rows. *)
Lemma py_overshoot_total (scada : list Py.Row) (minGHI : PyNum) (n : nat)
    (r : Py.Row) :
  Py.IntAreas scada ->
  scada !! n = Some r ->
  Py.Qualifies scada minGHI r ->
  (Py.wholeTotal (filter (Py.Qualifies scada minGHI) (take n scada))
   + Py.wholeArea r
   <= Py.wholeTotal (filter (Py.Qualifies scada minGHI) scada))%Z.
Proof.
  intros Hint Hr Hq.
  pose proof (take_drop_middle _ _ _ Hr) as Hsplit.
  replace (filter (Py.Qualifies scada minGHI) scada)
    with (filter (Py.Qualifies scada minGHI) (take n scada ++ r :: drop (S n) scada))
    by (rewrite Hsplit; reflexivity).
  rewrite filter_app, filter_cons_True by exact Hq.
  rewrite wholeTotal_app, wholeTotal_cons.
  assert (Hrest : Py.IntAreas (drop (S n) scada)).
  { unfold Py.IntAreas in *. rewrite Forall_forall in *. intros x Hx.
    apply Hint. eapply subseteq_drop. exact Hx. }
  pose proof (wholeTotal_nonneg scada minGHI _ Hrest) as H0. lia.
Qed.

(** X5. On a catalogue and a target of whole numbers, if the areas of the
    qualifying rows add up to at most the target, the selection is all of
    them, in the order of the catalogue, each at its full area, none
    truncated.  On floats the running sum is rounded, and this fails: the
    areas 1, 3 * 2^-53 and 3 * 2^-53 add up exactly to the target
    1 + 3 * 2^-52, and the third row is truncated, to 2^-52. *)
Theorem x04GetRegions_exhausts (scada : list Py.Row) (t : Z) (minGHI : PyNum) :
  Py.IntAreas scada ->
  (Py.wholeTotal (filter (Py.Qualifies scada minGHI) scada) <= t)%Z ->
  Py.x04GetRegions scada (PyInt t) minGHI
  = Ok (filter (Py.Qualifies scada minGHI) scada, Py.regionName scada) /\
  (match Py.exactTotal Py.ulps, Py.value (PyFloat 0x1.0000000000003p+0) with
   | Some total, Py.Finite target => Qeq_bool total target = true
   | _, _ => False
   end /\
   Py.x04GetRegions Py.ulps (PyFloat 0x1.0000000000003p+0) (PyInt 2000)
   = Ok ([Py.csvRow "E1" (PyInt 2200) (PyFloat 1);
          Py.csvRow "E1" (PyInt 2100) (PyFloat 0x3p-53);
          Py.csvRow "E1" (PyInt 2000) (PyFloat 0x1p-52)],
         Some "E"%string)).
Proof.
  intros Hint Hfit. split; [| split; vm_compute; reflexivity].
  destruct (py_x04GetRegions_int scada t minGHI Hint) as (n & _ & Hn).
  cbn zeta in Hn. destruct Hn as [[-> Heq] | (r & Hr & Hq & Hover & _)].
  - rewrite firstn_all in Heq. exact Heq.
  - pose proof (py_overshoot_total scada minGHI n r Hint Hr Hq). lia.
Qed.

Lemma x04GetRegions_exhausts_witness :
  Py.IntAreas Py.scenario /\
  (Py.wholeTotal (filter (Py.Qualifies Py.scenario (PyInt 2000)) Py.scenario)
   <= 1000)%Z /\
  Py.x04GetRegions Py.scenario (PyInt 1000) (PyInt 2000)
  = Ok (filter (Py.Qualifies Py.scenario (PyInt 2000)) Py.scenario,
        Py.regionName Py.scenario).
Proof.
  assert (H : (Py.wholeTotal (filter (Py.Qualifies Py.scenario (PyInt 2000))
                                     Py.scenario) <= 1000)%Z)
    by (vm_compute; discriminate).
  split; [exact IntAreas_scenario |]. split; [exact H |].
  exact (proj1 (x04GetRegions_exhausts Py.scenario 1000 (PyInt 2000)
                                       IntAreas_scenario H)).
Defined.

(** X6. On a catalogue and a target of whole numbers, if the qualifying
    rows hold more area than a target that is not negative, the cumulative
    area of the selection is the target.  On floats the remaining budget
    is rounded, and this fails: for the areas 0.3 and 1.0 and the target
    0.9 the cumulative area is 0.9000000000000001. *)
Theorem x04GetRegions_fills (scada : list Py.Row) (t : Z) (minGHI : PyNum) :
  Py.IntAreas scada ->
  (0 <= t)%Z ->
  (t < Py.wholeTotal (filter (Py.Qualifies scada minGHI) scada))%Z ->
  (exists rows : list Py.Row,
      Py.x04GetRegions scada (PyInt t) minGHI = Ok (rows, Py.regionName scada) /\
      Py.totalArea rows = Ok (PyInt t)) /\
  (exists rows : list Py.Row,
      Py.x04GetRegions Py.tenths (PyFloat 0.9) (PyInt 2000)
      = Ok (rows, Some "E"%string) /\
      Py.totalArea rows = Ok (PyFloat 0.9000000000000001)).
Proof.
  intros Hint Ht Hmore. split; [| eexists; split; vm_compute; reflexivity].
  destruct (py_x04GetRegions_int scada t minGHI Hint) as (n & Hle & Hn).
  cbn zeta in *. specialize (Hle Ht).
  destruct Hn as [[-> _] | (r & Hr & Hq & Hover & Heq)].
  - rewrite firstn_all in Hle. lia.
  - eexists. split; [exact Heq |].
    unfold Py.totalArea. rewrite areaFrom_int.
    + rewrite wholeTotal_app. cbn. f_equal. f_equal. lia.
    + apply Forall_app. split.
      * exact (IntAreas_pre (Py.Qualifies scada minGHI) n scada Hint).
      * apply Forall_singleton. eexists. reflexivity.
Qed.

Lemma x04GetRegions_fills_witness :
  Py.IntAreas Py.scenario /\
  (0 <= 600)%Z /\
  (600 < Py.wholeTotal (filter (Py.Qualifies Py.scenario (PyInt 2000))
                               Py.scenario))%Z /\
  exists rows : list Py.Row,
    Py.x04GetRegions Py.scenario (PyInt 600) (PyInt 2000)
    = Ok (rows, Py.regionName Py.scenario) /\
    Py.totalArea rows = Ok (PyInt 600).
Proof.
  assert (H0 : (0 <= 600)%Z) by lia.
  assert (H : (600 < Py.wholeTotal (filter (Py.Qualifies Py.scenario (PyInt 2000))
                                           Py.scenario))%Z)
    by (vm_compute; reflexivity).
  split; [exact IntAreas_scenario |]. split; [exact H0 |]. split; [exact H |].
  exact (proj1 (x04GetRegions_fills Py.scenario 600 (PyInt 2000)
                                    IntAreas_scenario H0 H)).
Defined.

End PythonNumbers.

(** ** The selection on whole numbers *)






Lemma exactRow_set_Area_m2 (v : Z) (r : Py.Row) :
  exactRow (Py.set_Area_m2 (Py.PyInt v) r) = set_Area_m2 (inject_Z v) (exactRow r).
Proof. reflexivity. Qed.



